(** * toil.batchSystems.lsfHelper: LSF memory units and policy flags

    A shallow embedding of [src/toil/batchSystems/lsfHelper.py].

    - Strings are Python 2 byte strings ([str]), as [check_output] and file
      iteration return them there: [Stdlib.Strings.String].
    - Numbers are Python [int] (as [Z]) or [float] (IEEE-754 binary64, as the
      [spec_float] of the Standard Library with [prec = 53], [emax = 1024]).
    - Exceptions are explicit: a computation returns [Ok v] or [Raise e].
    - The operating system (child processes, environment, directory walks and
      file contents) is a record [World] of oracles read by the probes.

    The program comes first, then the definitions used to state its
    properties, then the properties. *)

From Stdlib Require Import ZArith List Bool Lia Ascii String QArith Qround Qpower.
From Stdlib Require Import SpecFloat.
Import ListNotations.

Local Open Scope string_scope.
Local Open Scope Z_scope.

(** ** Exceptions and results *)

Inductive exn : Type :=
| AssertionError (msg : string)
| OverflowError
| ValueError
| ZeroDivisionError
| OSError
| CalledProcessError (returncode : Z)
| IOError.

Inductive pyresult (A : Type) : Type :=
| Ok (a : A)
| Raise (e : exn).

Arguments Ok {A} a.
Arguments Raise {A} e.

Definition bind {A B : Type} (m : pyresult A) (k : A -> pyresult B) : pyresult B :=
  match m with
  | Ok a => k a
  | Raise e => Raise e
  end.

Notation "x <- m ;; k" := (bind m (fun x => k))
  (at level 61, m at next level, right associativity).

(** ** Python string methods *)

Module PyStr.

(** ASCII whitespace, the characters removed by [str.strip()]. *)
Definition isspace (c : ascii) : bool :=
  let n := nat_of_ascii c in
  (Nat.eqb n 32 || (Nat.leb 9 n && Nat.leb n 13))%bool.

Definition is_empty (s : string) : bool :=
  match s with
  | EmptyString => true
  | String _ _ => false
  end.

Fixpoint lstrip (s : string) : string :=
  match s with
  | EmptyString => EmptyString
  | String c s' => if isspace c then lstrip s' else s
  end.

Fixpoint rstrip (s : string) : string :=
  match s with
  | EmptyString => EmptyString
  | String c s' =>
      let r := rstrip s' in
      if (isspace c && is_empty r)%bool then EmptyString else String c r
  end.

(** [s.strip()] *)
Definition strip (s : string) : string := rstrip (lstrip s).

Definition upper_char (c : ascii) : ascii :=
  let n := nat_of_ascii c in
  if (Nat.leb 97 n && Nat.leb n 122)%bool then ascii_of_nat (n - 32) else c.

(** [s.upper()] *)
Fixpoint upper (s : string) : string :=
  match s with
  | EmptyString => EmptyString
  | String c s' => String (upper_char c) (upper s')
  end.

(** [s.startswith(p)] *)
Fixpoint startswith (p s : string) : bool :=
  match p with
  | EmptyString => true
  | String a p' =>
      match s with
      | EmptyString => false
      | String b s' => (Ascii.eqb a b && startswith p' s')%bool
      end
  end.

(** [s.split(sep)] for a one-character separator: every occurrence of the
    separator cuts, and the result always has at least one field. *)
Fixpoint split (sep : ascii) (s : string) : list string :=
  match s with
  | EmptyString => [EmptyString]
  | String c s' =>
      if Ascii.eqb c sep then EmptyString :: split sep s'
      else
        match split sep s' with
        | [] => [String c EmptyString]
        | f :: fs => String c f :: fs
        end
  end.

(** Number of occurrences of a character. *)
Fixpoint count (sep : ascii) (s : string) : nat :=
  match s with
  | EmptyString => O
  | String c s' => if Ascii.eqb c sep then S (count sep s') else count sep s'
  end.

(** The text before, and after, the first occurrence of a character. *)
Fixpoint before (sep : ascii) (s : string) : string :=
  match s with
  | EmptyString => EmptyString
  | String c s' => if Ascii.eqb c sep then EmptyString else String c (before sep s')
  end.

Fixpoint after (sep : ascii) (s : string) : string :=
  match s with
  | EmptyString => EmptyString
  | String c s' => if Ascii.eqb c sep then s' else after sep s'
  end.

(** Truth value of [None] or a string: only a non-empty string is true. *)
Definition truthy (v : option string) : bool :=
  match v with
  | Some s => negb (is_empty s)
  | None => false
  end.

End PyStr.

(** ** Module constants *)

Definition LSB_PARAMS_FILENAME : string := "lsb.params".
Definition LSF_CONF_FILENAME : string := "lsf.conf".
Definition LSF_CONF_ENV : list string := ["LSF_CONFDIR"; "LSF_ENVDIR"].
Definition DEFAULT_LSF_UNITS : string := "KB".
Definition DEFAULT_RESOURCE_UNITS : string := "MB".

(** ** The key-value tokenizer *)

(** [tokenize_conf_stream]: the generator's entries, in the order yielded. *)
Fixpoint tokenize_conf_stream (conf_handle : list string) : list (string * string) :=
  match conf_handle with
  | [] => []
  | line :: rest =>
      if PyStr.startswith "#" line then tokenize_conf_stream rest
      else
        match PyStr.split "=" line with
        | [k; v] => (PyStr.strip k, PyStr.strip v) :: tokenize_conf_stream rest
        | _ => tokenize_conf_stream rest
        end
  end.

(** The three stream readers return at the first entry with their key. *)
Fixpoint first_entry (key : string) (entries : list (string * string)) : option string :=
  match entries with
  | [] => None
  | (k, v) :: rest => if String.eqb k key then Some v else first_entry key rest
  end.

Definition per_core_reserve_from_stream (stream : list string) : option string :=
  option_map PyStr.upper (first_entry "RESOURCE_RESERVE_PER_SLOT" (tokenize_conf_stream stream)).

Definition get_lsf_units_from_stream (stream : list string) : option string :=
  first_entry "LSF_UNIT_FOR_LIMITS" (tokenize_conf_stream stream).

Definition parallel_sched_by_slot_from_stream (stream : list string) : option string :=
  option_map PyStr.upper (first_entry "PARALLEL_SCHED_BY_SLOT" (tokenize_conf_stream stream)).

(** ** The operating system, as seen by the probes *)

(** [check_output cmd] is [subprocess.check_output(cmd)]: the captured
    standard output, or the exception raised when the command cannot be run
    or exits with a non-zero status.  [environ_get] is [os.environ.get].
    [os_walk basedir] lists the [(root, dirnames, filenames)] triples of
    [os.walk(basedir)] in the order yielded.  [open_lines path] is the list
    of lines read from [open(path)], each with its line terminator, or the
    exception raised by [open]. *)
Record World : Type := {
  check_output : list string -> pyresult string;
  environ_get : string -> option string;
  os_walk : string -> list (string * list string * list string);
  open_lines : string -> pyresult (list string)
}.

(** [fnmatch.filter(names, pat)].  The two patterns of this module,
    [lsb.params] and [lsf.conf], hold no wildcard, so a name matches when it
    is the pattern. *)
Definition fnmatch_filter (names : list string) (pat : string) : list string :=
  filter (fun name => String.eqb name pat) names.

(** [os.path.join(root, filename)] for a relative [filename]. *)
Fixpoint ends_with_slash (s : string) : bool :=
  match s with
  | EmptyString => false
  | String c EmptyString => Ascii.eqb c "/"
  | String _ s' => ends_with_slash s'
  end.

Definition os_path_join (root filename : string) : string :=
  if (PyStr.is_empty root || ends_with_slash root)%bool then root ++ filename
  else root ++ "/" ++ filename.

Section Probes.

Variable w : World.

(** [find]: walk basedir and return all files matching string. *)
Definition find (basedir string_ : string) : list string :=
  flat_map
    (fun '(root, _, filenames) =>
       map (os_path_join root) (fnmatch_filter filenames string_))
    (os_walk w basedir).

(** [find_first_match]: the first match, or the empty (false) list of
    matches, rendered here as [None]. *)
Definition find_first_match (basedir string_ : string) : option string :=
  match find basedir string_ with
  | m :: _ => Some m
  | [] => None
  end.

Definition get_conf_file (filename env : string) : option string :=
  match environ_get w env with
  | None => None
  | Some conf_path =>
      if PyStr.is_empty conf_path then None
      else find_first_match conf_path filename
  end.

Section WithReader.

(** The stream reader handed to a probe. *)
Variable fn : list string -> option string.

Fixpoint apply_conf_file_loop (envs : list string) (conf_filename : string)
  : pyresult (option string) :=
  match envs with
  | [] => Ok None
  | env :: rest =>
      let conf_file := get_conf_file conf_filename env in
      if PyStr.truthy conf_file then
        match conf_file with
        | Some path =>
            conf_handle <- open_lines w path ;;
            let value := fn conf_handle in
            if PyStr.truthy value then Ok value
            else apply_conf_file_loop rest conf_filename
        | None => apply_conf_file_loop rest conf_filename
        end
      else apply_conf_file_loop rest conf_filename
  end.

Definition apply_conf_file (conf_filename : string) : pyresult (option string) :=
  apply_conf_file_loop LSF_CONF_ENV conf_filename.

(** [apply_bparams]: apply fn to each line of bparams, returning the
    result.  The bare [except:] turns every exception of the call into
    [None]. *)
Definition apply_bparams : pyresult (option string) :=
  let cmd := ["bparams"; "-a"] in
  match check_output w cmd with
  | Raise _ => Ok None
  | Ok output => Ok (fn (PyStr.split (ascii_of_nat 10) output))
  end.

(** [apply_lsadmin]: apply fn to each line of lsadmin, returning the
    result. *)
Definition apply_lsadmin : pyresult (option string) :=
  let cmd := ["lsadmin"; "showconf"; "lim"] in
  match check_output w cmd with
  | Raise _ => Ok None
  | Ok output => Ok (fn (PyStr.split (ascii_of_nat 10) output))
  end.

End WithReader.

(** ** The resolvers *)

Definition unwrap (v : option string) : string :=
  match v with
  | Some s => s
  | None => EmptyString
  end.

Definition get_lsf_units (resource : bool) : pyresult string :=
  lsf_units <- apply_bparams get_lsf_units_from_stream ;;
  if PyStr.truthy lsf_units then Ok (unwrap lsf_units) else
  lsf_units <- apply_lsadmin get_lsf_units_from_stream ;;
  if PyStr.truthy lsf_units then Ok (unwrap lsf_units) else
  lsf_units <- apply_conf_file get_lsf_units_from_stream LSF_CONF_FILENAME ;;
  if PyStr.truthy lsf_units then Ok (unwrap lsf_units) else
  if resource then Ok DEFAULT_RESOURCE_UNITS else Ok DEFAULT_LSF_UNITS.

(** [v == "Y"] for a value that may be [None]. *)
Definition is_Y (v : option string) : bool :=
  match v with
  | Some s => String.eqb s "Y"
  | None => false
  end.

Definition per_core_reservation : pyresult bool :=
  per_core <- apply_bparams per_core_reserve_from_stream ;;
  if PyStr.truthy per_core then
    (if is_Y per_core then Ok true else Ok false)
  else
  per_core <- apply_lsadmin per_core_reserve_from_stream ;;
  if PyStr.truthy per_core then
    (if is_Y per_core then Ok true else Ok false)
  else
  per_core <- apply_conf_file per_core_reserve_from_stream LSB_PARAMS_FILENAME ;;
  if (PyStr.truthy per_core && is_Y per_core)%bool then Ok true
  else Ok false.

Definition parallel_sched_by_slot : pyresult bool :=
  sched <- apply_bparams parallel_sched_by_slot_from_stream ;;
  if PyStr.truthy sched then
    (if is_Y sched then Ok true else Ok false)
  else
  sched <- apply_lsadmin parallel_sched_by_slot_from_stream ;;
  if PyStr.truthy sched then
    (if is_Y sched then Ok true else Ok false)
  else
  sched <- apply_conf_file parallel_sched_by_slot_from_stream LSB_PARAMS_FILENAME ;;
  if (PyStr.truthy sched && is_Y sched)%bool then Ok true
  else Ok false.

End Probes.

(** ** Python numbers *)

Module PyNum.

Definition prec : Z := 53.
Definition emax : Z := 1024.

(** A Python number: an [int] or a [float]. *)
Inductive t : Type :=
| PyInt (z : Z)
| PyFloat (f : spec_float).

(** [float(x)]: an [int] is rounded to the nearest double, ties to even,
    and is refused when it is too large for a double. *)
Definition float (x : t) : pyresult spec_float :=
  match x with
  | PyFloat f => Ok f
  | PyInt z =>
      match binary_normalize prec emax z 0 false with
      | S754_infinity _ => Raise OverflowError
      | f => Ok f
      end
  end.

Definition is_zero (f : spec_float) : bool :=
  match f with
  | S754_zero _ => true
  | _ => false
  end.

(** [a * b] where one operand at least is a [float]. *)
Definition fmul (a b : t) : pyresult t :=
  fa <- float a ;;
  fb <- float b ;;
  Ok (PyFloat (SFmul prec emax fa fb)).

(** [a / b] under [from __future__ import division]. *)
Definition truediv (a b : t) : pyresult t :=
  fa <- float a ;;
  fb <- float b ;;
  if is_zero fb then Raise ZeroDivisionError
  else Ok (PyFloat (SFdiv prec emax fa fb)).

(** [past.utils.old_div]: floor division of two integers, true division
    otherwise. *)
Definition old_div (a b : t) : pyresult t :=
  match a, b with
  | PyInt x, PyInt y =>
      if y =? 0 then Raise ZeroDivisionError else Ok (PyInt (x / y))
  | _, _ => truediv a b
  end.

(** [int(x)]: truncation toward zero. *)
Definition int (x : t) : pyresult Z :=
  match x with
  | PyInt z => Ok z
  | PyFloat (S754_zero _) => Ok 0
  | PyFloat (S754_infinity _) => Raise OverflowError
  | PyFloat S754_nan => Raise ValueError
  | PyFloat (S754_finite s m e) =>
      let a := match e with
               | Zneg p => Z.pos m / 2 ^ Z.pos p
               | _ => Z.pos m * 2 ^ e
               end in
      Ok (if s then - a else a)
  end.

(** [math.pow(b, k)] for two integers, the only use in this module: the
    power [b ^ k] as a double.  For [b = 1024] every step is exact. *)
Definition math_pow (b k : Z) : pyresult spec_float :=
  let p := match k with
           | Zneg n =>
               SFdiv prec emax (SFone prec emax)
                 (binary_normalize prec emax (b ^ Z.pos n) 0 false)
           | _ => binary_normalize prec emax (b ^ k) 0 false
           end in
  match p with
  | S754_infinity _ => Raise OverflowError
  | _ => Ok p
  end.

End PyNum.

Import PyNum.

(** ** The memory converter *)

(** The dictionary [UNITS], in insertion order.  (Where a dictionary lists
    its keys in another order, the list printed in the message below is
    that permutation of the five symbols.) *)
Definition UNITS : list (string * Z) :=
  [("B", -2); ("KB", -1); ("MB", 0); ("GB", 1); ("TB", 2)].

Fixpoint dict_get (d : list (string * Z)) (k : string) : option Z :=
  match d with
  | [] => None
  | (k', v) :: rest => if String.eqb k' k then Some v else dict_get rest k
  end.

(** [repr] of a list of plain strings, as [%s] prints [list(UNITS.keys())]. *)
Fixpoint repr_items (l : list string) : string :=
  match l with
  | [] => EmptyString
  | [x] => "'" ++ x ++ "'"
  | x :: rest => "'" ++ x ++ "', " ++ repr_items rest
  end.

Definition repr_list (l : list string) : string := "[" ++ repr_items l ++ "]".

Definition invalid_unit_message (unit : string) : string :=
  unit ++ " not a valid unit, valid units are " ++ repr_list (map fst UNITS) ++ ".".

Definition convert_mb (kb : PyNum.t) (unit : string) : pyresult Z :=
  match dict_get UNITS unit with
  | None => Raise (AssertionError (invalid_unit_message unit))
  | Some exponent =>
      num <- PyNum.float kb ;;
      den <- PyNum.math_pow 1024 exponent ;;
      q <- PyNum.old_div (PyFloat num) (PyFloat den) ;;
      PyNum.int q
  end.

(** ** The memory parsers *)

Definition parse_memory (w : World) (mem : PyNum.t) (resource : bool) : pyresult Z :=
  lsf_unit <- get_lsf_units w resource ;;
  fmem <- PyNum.float mem ;;
  kb <- PyNum.fmul (PyFloat fmem) (PyInt 1024) ;;
  convert_mb kb lsf_unit.

(** Parse memory parameter for -R *)
Definition parse_memory_resource (w : World) (mem : PyNum.t) : pyresult Z :=
  parse_memory w mem true.

(** Parse memory parameter for -M *)
Definition parse_memory_limit (w : World) (mem : PyNum.t) : pyresult Z :=
  parse_memory w mem false.

(** * toil.utils.toilClean *)

Module ToilClean.

(** What leaves [main]: nothing, an exception of the code it calls, or the
    [UnboundLocalError] of reading a local variable that was never
    assigned. *)
Inductive raised : Type :=
| Exn (e : exn)
| UnboundLocalError (name : string).

(** The collaborators of [main], which live in other modules: the option
    parser and [Config.setOptions] (the value left in [config.jobStore], or
    the exception raised on the way), [Toil.getJobStore], the job store's
    [destroy] and its [str]. *)
Record Env (J : Type) : Type := {
  parse_options : pyresult string;
  getJobStore : string -> pyresult J;
  destroy : J -> pyresult unit;
  str : J -> string
}.

Arguments parse_options {J} _.
Arguments getJobStore {J} _ _.
Arguments destroy {J} _ _.
Arguments str {J} _ _.

Section Main.

Variable J : Type.
Variable env : Env J.

(** The local variable [jobStore]: unbound until the assignment in the
    [try] block has run. *)
Definition locals : Type := option J.

(** The body of the [try] block: the locals it leaves, the lines it logs
    and how it ends. *)
Definition try_body (locator : string) : locals * list string * pyresult unit :=
  match getJobStore env locator with
  | Raise e => (None, [], Raise e)
  | Ok jobStore =>
      match destroy env jobStore with
      | Raise e => (Some jobStore, [], Raise e)
      | Ok _ =>
          (Some jobStore,
           ["Successfully deleted the job store: " ++ str env jobStore], Ok tt)
      end
  end.

(** The [except:] block: it formats [str(jobStore)], logs, and re-raises. *)
Definition except_body (l : locals) (e : exn) : list string * raised :=
  match l with
  | None => ([], UnboundLocalError "jobStore")
  | Some jobStore =>
      (["Failed to delete the job store: " ++ str env jobStore], Exn e)
  end.

(** [main]: the lines logged at level INFO, and the exception that leaves
    it, if any. *)
Definition main : list string * option raised :=
  match parse_options env with
  | Raise e => ([], Some (Exn e))
  | Ok locator =>
      match try_body locator with
      | (_, logged, Ok _) => (logged, None)
      | (l, logged, Raise e) =>
          let '(more, r) := except_body l e in
          ((logged ++ more)%list, Some r)
      end
  end.

End Main.

End ToilClean.

(** * Specification-level definitions *)

(** ** The tokenizer, line by line *)

(** What one line contributes: nothing for a comment line and for a line
    that does not hold exactly one [=]; otherwise the trimmed texts on both
    sides of its [=]. *)
Definition entry_of_line (line : string) : list (string * string) :=
  if PyStr.startswith "#" line then []
  else if Nat.eqb (PyStr.count "=" line) 1
       then [(PyStr.strip (PyStr.before "=" line), PyStr.strip (PyStr.after "=" line))]
       else [].

(** The tokenizer as the specification words it: a line is cut at its first
    [=] only, and is malformed when that does not give two parts, that is
    when it holds no [=]. *)
Definition entry_of_line_first_eq (line : string) : list (string * string) :=
  if PyStr.startswith "#" line then []
  else if Nat.eqb (PyStr.count "=" line) 0 then []
       else [(PyStr.strip (PyStr.before "=" line), PyStr.strip (PyStr.after "=" line))].

Definition tokenize_first_eq (lines : list string) : list (string * string) :=
  flat_map entry_of_line_first_eq lines.

Definition LF : string := String (ascii_of_nat 10) EmptyString.

(** ** Probes and their answers *)

Definition bparams_cmd : list string := ["bparams"; "-a"].
Definition lsadmin_cmd : list string := ["lsadmin"; "showconf"; "lim"].

(** The lines handed to a stream reader by a command probe. *)
Definition lines_of (output : string) : list string :=
  PyStr.split (ascii_of_nat 10) output.

(** A probe answers [v] when it returns the non-empty string [v]; it is
    silent when it returns [None] or the empty string. *)
Definition answers (p : pyresult (option string)) (v : string) : Prop :=
  p = Ok (Some v) /\ v <> EmptyString.

Definition silent (p : pyresult (option string)) : Prop :=
  exists a, p = Ok a /\ PyStr.truthy a = false.

(** A command is unavailable when running it raises. *)
Definition unavailable (w : World) (cmd : list string) : Prop :=
  exists e, check_output w cmd = Raise e.

(** A configuration file is found through an environment variable, and read. *)
Definition conf_file_found (w : World) (filename env : string) (lines : list string) : Prop :=
  exists path, get_conf_file w filename env = Some path /\ open_lines w path = Ok lines.

(** An environment variable gives no answer: it leads to no file, or to a
    file in which the reader finds nothing or an empty value. *)
Definition conf_env_silent (w : World) (fn : list string -> option string)
    (filename env : string) : Prop :=
  get_conf_file w filename env = None \/
  exists lines, conf_file_found w filename env lines /\ PyStr.truthy (fn lines) = false.

Section PriorityChain.

Variable w : World.
Variable fn : list string -> option string.
Variable conf_filename : string.
Variable X : Type.
Variable resolver : pyresult X.
Variable decode : string -> X.
Variable default : X.

(** The resolver returns the answer of the first probe, in the order
    bparams, lsadmin, configuration file, that answers. *)
Definition stops_at_first_answer : Prop :=
  (forall v, answers (apply_bparams w fn) v -> resolver = Ok (decode v)) /\
  (forall v, silent (apply_bparams w fn) ->
             answers (apply_lsadmin w fn) v -> resolver = Ok (decode v)) /\
  (forall v, silent (apply_bparams w fn) -> silent (apply_lsadmin w fn) ->
             answers (apply_conf_file w fn conf_filename) v ->
             resolver = Ok (decode v)).

(** The resolver returns its default when no probe answers. *)
Definition defaults_when_silent : Prop :=
  silent (apply_bparams w fn) -> silent (apply_lsadmin w fn) ->
  silent (apply_conf_file w fn conf_filename) ->
  resolver = Ok default.

(** Some probe is the first to answer [v]. *)
Definition first_answer (v : string) : Prop :=
  answers (apply_bparams w fn) v \/
  (silent (apply_bparams w fn) /\ answers (apply_lsadmin w fn) v) \/
  (silent (apply_bparams w fn) /\ silent (apply_lsadmin w fn) /\
   answers (apply_conf_file w fn conf_filename) v).

Definition all_silent : Prop :=
  silent (apply_bparams w fn) /\ silent (apply_lsadmin w fn) /\
  silent (apply_conf_file w fn conf_filename).

End PriorityChain.

Arguments stops_at_first_answer w fn conf_filename {X} resolver decode.
Arguments defaults_when_silent w fn conf_filename {X} resolver default.

Definition default_units (resource : bool) : string :=
  if resource then DEFAULT_RESOURCE_UNITS else DEFAULT_LSF_UNITS.

Definition eq_Y (v : string) : bool := String.eqb v "Y".

(** The same world with one command made to fail. *)
Definition cmd_eqb (a b : list string) : bool :=
  if list_eq_dec string_dec a b then true else false.

Definition fail_command (w : World) (cmd : list string) : World :=
  {| check_output c := if cmd_eqb c cmd then Raise OSError else check_output w c;
     environ_get := environ_get w;
     os_walk := os_walk w;
     open_lines := open_lines w |}.

(** A small cluster for the examples: the two commands behave as given,
    [LSF_CONFDIR] is as given, and the directory [/opt/lsf/conf] holds, one
    level down, the two configuration files with the given lines. *)
Definition sample_world (bparams lsadmin : pyresult string) (confdir : option string)
    (lsf_conf lsb_params : list string) : World :=
  {| check_output c :=
       if cmd_eqb c bparams_cmd then bparams
       else if cmd_eqb c lsadmin_cmd then lsadmin
       else Raise OSError;
     environ_get name := if String.eqb name "LSF_CONFDIR" then confdir else None;
     os_walk basedir :=
       if String.eqb basedir "/opt/lsf/conf"
       then [("/opt/lsf/conf", ["cluster"], ["hosts"]);
             ("/opt/lsf/conf/cluster", [], ["lsb.params"; "lsf.conf"])]
       else [];
     open_lines path :=
       if String.eqb path "/opt/lsf/conf/cluster/lsf.conf" then Ok lsf_conf
       else if String.eqb path "/opt/lsf/conf/cluster/lsb.params" then Ok lsb_params
       else Raise IOError |}.

(** A cluster on which nothing can be probed. *)
Definition bare_world : World :=
  sample_world (Raise OSError) (Raise (CalledProcessError 255)) None [] [].

(** C3 as stated: the first command probe wins as soon as its output holds
    the key, whatever the value. *)
Definition first_key_wins : Prop :=
  forall w resource out1 out2 v1 v2,
    check_output w bparams_cmd = Ok out1 ->
    check_output w lsadmin_cmd = Ok out2 ->
    get_lsf_units_from_stream (lines_of out1) = Some v1 ->
    get_lsf_units_from_stream (lines_of out2) = Some v2 ->
    v1 <> v2 ->
    get_lsf_units w resource = Ok v1.

(** C4 as stated: with both commands unavailable, the value of a file that
    holds the key is returned, whatever the value. *)
Definition file_key_wins : Prop :=
  forall w resource lines v,
    unavailable w bparams_cmd -> unavailable w lsadmin_cmd ->
    conf_file_found w LSF_CONF_FILENAME "LSF_CONFDIR" lines ->
    get_lsf_units_from_stream lines = Some v ->
    get_lsf_units w resource = Ok v.

(** ** Units and messages *)

(** The valid unit symbols with their powers of 1024, as the specification
    lists them. *)
Definition unit_table : list (string * Z) :=
  [("B", -2); ("KB", -1); ("MB", 0); ("GB", 1); ("TB", 2)].

(** [needle] occurs in [hay]. *)
Definition occurs_in (needle hay : string) : Prop :=
  exists pre post, hay = pre ++ needle ++ post.

(** C9 as stated: whatever value the first command probe holds for the key,
    [get_lsf_units] returns it. *)
Definition configured_value_returned : Prop :=
  forall w resource out v,
    check_output w bparams_cmd = Ok out ->
    get_lsf_units_from_stream (lines_of out) = Some v ->
    get_lsf_units w resource = Ok v.

(** ** Numbers *)

(** The mantissa of a power of two as a normal double, and the double
    [1024.0]. *)
Definition two52 : positive := 4503599627370496.

Definition float_1024 : spec_float := S754_finite false two52 (-42).

(** [floor (q / 1024 ^ e)], computed on rationals. *)
Definition floor_quotient (q : Q) (e : Z) : Z :=
  Qfloor (q / Qpower (1024 # 1) e).

(** The rational value of the positive double of mantissa [M] and exponent
    [E]. *)
Definition double_value (M : positive) (E : Z) : Q :=
  (inject_Z (Z.pos M) * Qpower (2 # 1) E)%Q.

(** C1 as stated: the converter returns the floor of the quotient for every
    non-negative quantity. *)
Definition convert_mb_floor_everywhere : Prop :=
  forall v u e,
    In (u, e) unit_table -> 0 <= v ->
    convert_mb (PyInt v) u = Ok (floor_quotient (inject_Z v) e).

(** ** Definitions for further properties *)

(** [sep.join(fields)] *)
Fixpoint join (sep : ascii) (fields : list string) : string :=
  match fields with
  | [] => EmptyString
  | [f] => f
  | f :: rest => f ++ String sep (join sep rest)
  end.

(** [v / 1024 ^ e] rounded down, on integers. *)
Definition scaled (v e : Z) : Z :=
  if 0 <=? e then v / 1024 ^ e else v * 1024 ^ (- e).

(** ** More example systems *)

(** A cluster whose commands behave as given and whose configuration files
    are found under LSF_CONFDIR but cannot be opened. *)
Definition locked_world (bparams lsadmin : pyresult string) : World :=
  {| check_output c :=
       if cmd_eqb c bparams_cmd then bparams
       else if cmd_eqb c lsadmin_cmd then lsadmin
       else Raise OSError;
     environ_get name :=
       if String.eqb name "LSF_CONFDIR" then Some "/opt/lsf/conf" else None;
     os_walk basedir :=
       if String.eqb basedir "/opt/lsf/conf"
       then [("/opt/lsf/conf", [], ["lsb.params"; "lsf.conf"])]
       else [];
     open_lines path := Raise IOError |}.

(** A job store that is found and deleted, one that is found but whose
    deletion fails, and one that cannot be obtained. *)
Definition clean_env (found : bool) (deleted : bool) : ToilClean.Env string :=
  {| ToilClean.parse_options := Ok "file:/tmp/jobstore";
     ToilClean.getJobStore locator := if found then Ok locator else Raise OSError;
     ToilClean.destroy jobStore := if deleted then Ok tt else Raise IOError;
     ToilClean.str jobStore := jobStore |}.

(** * Properties *)

(** ** Strings *)

Section StringFacts.

Variable sep : ascii.

Lemma split_not_nil (s : string) : PyStr.split sep s <> [].
Proof.
  destruct s as [|c s]; simpl; [discriminate|].
  destruct (Ascii.eqb c sep); [discriminate|].
  destruct (PyStr.split sep s); discriminate.
Qed.

Lemma split_length (s : string) :
  List.length (PyStr.split sep s) = S (PyStr.count sep s).
Proof.
  induction s as [|c s IH]; simpl; [reflexivity|].
  destruct (Ascii.eqb c sep); simpl; [now rewrite IH|].
  destruct (PyStr.split sep s) eqn:E; [now destruct (split_not_nil s)|].
  simpl in *. exact IH.
Qed.

Lemma split_count_0 (s : string) :
  PyStr.count sep s = O -> PyStr.split sep s = [s].
Proof.
  induction s as [|c s IH]; simpl; [reflexivity|].
  destruct (Ascii.eqb c sep); [discriminate|].
  intros H. now rewrite (IH H).
Qed.

Lemma split_count_1 (s : string) :
  PyStr.count sep s = 1%nat ->
  PyStr.split sep s = [PyStr.before sep s; PyStr.after sep s].
Proof.
  induction s as [|c s IH]; simpl; [discriminate|].
  destruct (Ascii.eqb c sep).
  - intros H. injection H as H. now rewrite (split_count_0 _ H).
  - intros H. now rewrite (IH H).
Qed.

Lemma split_two_fields (s : string) :
  (exists k v, PyStr.split sep s = [k; v]) <-> PyStr.count sep s = 1%nat.
Proof.
  split.
  - intros (k & v & H). pose proof (split_length s) as L.
    rewrite H in L. simpl in L. now injection L as ->.
  - intros H. rewrite (split_count_1 _ H). eauto.
Qed.

End StringFacts.

Lemma append_assoc (a b c : string) : (a ++ b) ++ c = a ++ (b ++ c).
Proof. induction a as [|x a IH]; simpl; [reflexivity|now rewrite IH]. Qed.

(** ** The tokenizer *)

Lemma tokenize_line (line : string) (rest : list string) :
  tokenize_conf_stream (line :: rest) = (entry_of_line line ++ tokenize_conf_stream rest)%list.
Proof.
  unfold entry_of_line. cbn [tokenize_conf_stream].
  destruct (PyStr.startswith "#" line); [reflexivity|].
  destruct (Nat.eqb (PyStr.count "=" line) 1) eqn:E.
  - apply Nat.eqb_eq in E. now rewrite (split_count_1 _ _ E).
  - apply Nat.eqb_neq in E.
    pose proof (split_length "=" line) as L.
    destruct (PyStr.split "=" line) as [|a [|b [|c l]]]; try reflexivity.
    simpl in L. injection L as L. now rewrite L in E.
Qed.

(** C6 (as amended): the tokenizer skips every line beginning with [#], cuts
    every other line at each [=], keeps exactly the lines that hold one [=],
    as the pair of the trimmed texts before and after it, skips the others
    without error, and yields the entries in line order; the stream
    ["# comment", "A=1", "bad line", "B = 2"] yields [("A","1"); ("B","2")]. *)
Theorem tokenize_conf_stream_entries :
  (forall lines, tokenize_conf_stream lines = flat_map entry_of_line lines) /\
  tokenize_conf_stream
    ["# comment" ++ LF; "A=1" ++ LF; "bad line" ++ LF; "B = 2" ++ LF]
  = [("A", "1"); ("B", "2")].
Proof.
  split; [|reflexivity].
  induction lines as [|line rest IH]; [reflexivity|].
  rewrite tokenize_line, IH. reflexivity.
Qed.

(** C6 fails as stated: a line with two [=] is cut in three and skipped,
    where a cut at the first [=] alone would give an entry. *)
Lemma tokenize_first_eq_differs :
  ~ (forall lines, tokenize_conf_stream lines = tokenize_first_eq lines).
Proof.
  intros H. specialize (H ["A=1=2"]). vm_compute in H. discriminate H.
Qed.

(** ** Probes *)

Lemma truthy_Some (v : string) : v <> EmptyString -> PyStr.truthy (Some v) = true.
Proof. destruct v; [congruence|reflexivity]. Qed.

Lemma truthy_true (a : option string) :
  PyStr.truthy a = true -> exists v, a = Some v /\ v <> EmptyString.
Proof.
  destruct a as [[|c v]|]; simpl; try discriminate.
  intros _. eexists. split; [reflexivity|discriminate].
Qed.

Lemma answers_or_silent (p : pyresult (option string)) (a : option string) :
  p = Ok a -> (exists v, answers p v) \/ silent p.
Proof.
  intros ->. destruct (PyStr.truthy a) eqn:T.
  - left. destruct (truthy_true _ T) as (v & -> & Hv). exists v. now split.
  - right. now exists a.
Qed.

Lemma answers_not_silent (p : pyresult (option string)) (v : string) :
  answers p v -> ~ silent p.
Proof.
  intros [-> Hv] (a & E & T). injection E as <-.
  rewrite (truthy_Some _ Hv) in T. discriminate.
Qed.

Section CommandProbes.

Variable w : World.
Variable fn : list string -> option string.

Lemma apply_bparams_output (out : string) :
  check_output w bparams_cmd = Ok out ->
  apply_bparams w fn = Ok (fn (lines_of out)).
Proof. unfold apply_bparams, bparams_cmd. now intros ->. Qed.

Lemma apply_lsadmin_output (out : string) :
  check_output w lsadmin_cmd = Ok out ->
  apply_lsadmin w fn = Ok (fn (lines_of out)).
Proof. unfold apply_lsadmin, lsadmin_cmd. now intros ->. Qed.

Lemma apply_bparams_unavailable :
  unavailable w bparams_cmd -> apply_bparams w fn = Ok None.
Proof. unfold apply_bparams, bparams_cmd. now intros [e ->]. Qed.

Lemma apply_lsadmin_unavailable :
  unavailable w lsadmin_cmd -> apply_lsadmin w fn = Ok None.
Proof. unfold apply_lsadmin, lsadmin_cmd. now intros [e ->]. Qed.

Lemma apply_bparams_total : exists a, apply_bparams w fn = Ok a.
Proof. unfold apply_bparams. destruct (check_output w _); eauto. Qed.

Lemma apply_lsadmin_total : exists a, apply_lsadmin w fn = Ok a.
Proof. unfold apply_lsadmin. destruct (check_output w _); eauto. Qed.

Lemma silent_None (p : pyresult (option string)) : p = Ok None -> silent p.
Proof. intros ->. now exists None. Qed.

End CommandProbes.

(** ** The configuration-file probe *)

Section ConfFile.

Variable w : World.
Variable fn : list string -> option string.
Variable conf_filename : string.
Hypothesis filename_not_empty : conf_filename <> EmptyString.

Lemma os_path_join_not_empty (root : string) :
  os_path_join root conf_filename <> EmptyString.
Proof.
  unfold os_path_join.
  destruct root as [|c root]; [exact filename_not_empty|].
  destruct (_ || _)%bool; discriminate.
Qed.

Lemma find_not_empty (basedir path : string) :
  In path (find w basedir conf_filename) -> path <> EmptyString.
Proof.
  unfold find. rewrite in_flat_map. intros ([[root dirs] files] & _ & H).
  apply in_map_iff in H. destruct H as (name & <- & H).
  apply filter_In in H. destruct H as [_ H]. apply String.eqb_eq in H.
  subst name. apply os_path_join_not_empty.
Qed.

Lemma get_conf_file_truthy (env path : string) :
  get_conf_file w conf_filename env = Some path ->
  PyStr.truthy (Some path) = true.
Proof.
  unfold get_conf_file, find_first_match. intros H. apply truthy_Some.
  destruct (environ_get w env) as [dir|]; [|discriminate].
  destruct (PyStr.is_empty dir); [discriminate|].
  destruct (find w dir conf_filename) as [|m l] eqn:F; [discriminate|].
  injection H as <-. apply (find_not_empty dir). rewrite F. now left.
Qed.

(** One round of the loop over the environment variables. *)
Lemma apply_conf_file_loop_answer (env : string) (rest : list string)
    (lines : list string) (v : string) :
  conf_file_found w conf_filename env lines ->
  fn lines = Some v -> v <> EmptyString ->
  apply_conf_file_loop w fn (env :: rest) conf_filename = Ok (Some v).
Proof.
  intros (path & G & O) F Hv. cbn [apply_conf_file_loop].
  rewrite G, (get_conf_file_truthy _ _ G), O. cbn [bind].
  rewrite F, (truthy_Some _ Hv). reflexivity.
Qed.

Lemma apply_conf_file_loop_skip (env : string) (rest : list string) :
  conf_env_silent w fn conf_filename env ->
  apply_conf_file_loop w fn (env :: rest) conf_filename
  = apply_conf_file_loop w fn rest conf_filename.
Proof.
  intros [G | (lines & (path & G & O) & T)]; cbn [apply_conf_file_loop].
  - now rewrite G.
  - rewrite G, (get_conf_file_truthy _ _ G), O. cbn [bind]. now rewrite T.
Qed.

Lemma apply_conf_file_confdir (lines : list string) (v : string) :
  conf_file_found w conf_filename "LSF_CONFDIR" lines ->
  fn lines = Some v -> v <> EmptyString ->
  answers (apply_conf_file w fn conf_filename) v.
Proof.
  intros C F Hv. split; [|assumption].
  apply (apply_conf_file_loop_answer _ _ lines); assumption.
Qed.

Lemma apply_conf_file_envdir (lines : list string) (v : string) :
  conf_env_silent w fn conf_filename "LSF_CONFDIR" ->
  conf_file_found w conf_filename "LSF_ENVDIR" lines ->
  fn lines = Some v -> v <> EmptyString ->
  answers (apply_conf_file w fn conf_filename) v.
Proof.
  intros S C F Hv. split; [|assumption].
  unfold apply_conf_file, LSF_CONF_ENV.
  rewrite (apply_conf_file_loop_skip _ _ S).
  apply (apply_conf_file_loop_answer _ _ lines); assumption.
Qed.

Lemma apply_conf_file_silent :
  conf_env_silent w fn conf_filename "LSF_CONFDIR" ->
  conf_env_silent w fn conf_filename "LSF_ENVDIR" ->
  apply_conf_file w fn conf_filename = Ok None.
Proof.
  intros S1 S2. unfold apply_conf_file, LSF_CONF_ENV.
  rewrite (apply_conf_file_loop_skip _ _ S1), (apply_conf_file_loop_skip _ _ S2).
  reflexivity.
Qed.

End ConfFile.

(** The file probe never returns an empty value: it returns a true value or
    [None]. *)
Lemma apply_conf_file_loop_value (w : World) (fn : list string -> option string)
    (envs : list string) (conf_filename : string) (a : option string) :
  apply_conf_file_loop w fn envs conf_filename = Ok a ->
  a = None \/ PyStr.truthy a = true.
Proof.
  induction envs as [|env rest IH]; simpl.
  - intros H. injection H as <-. now left.
  - destruct (PyStr.truthy (get_conf_file w conf_filename env)); [|exact IH].
    destruct (get_conf_file w conf_filename env) as [path|]; [|exact IH].
    destruct (open_lines w path) as [lines|e]; simpl; [|discriminate].
    destruct (PyStr.truthy (fn lines)) eqn:T; [|exact IH].
    intros H. injection H as <-. now right.
Qed.

(** ** The priority chain of the three resolvers *)

Ltac probe_step :=
  match goal with
  | H : answers ?p ?v |- context [bind ?p _] =>
      let E := fresh "E" in
      let Hv := fresh "Hv" in
      destruct H as [E Hv]; rewrite E; cbn [bind];
      rewrite ?(truthy_Some _ Hv); cbn [unwrap is_Y andb]
  | H : silent ?p |- context [bind ?p _] =>
      let a := fresh "a" in
      let E := fresh "E" in
      let T := fresh "T" in
      destruct H as (a & E & T); rewrite E; cbn [bind];
      rewrite ?T; cbn [andb]
  end.

Ltac bool_result :=
  unfold eq_Y;
  match goal with
  | |- context [String.eqb ?v "Y"] => destruct (String.eqb v "Y"); reflexivity
  | _ => reflexivity
  end.

Section Resolvers.

Variable w : World.

Lemma get_lsf_units_in_order (resource : bool) :
  stops_at_first_answer w get_lsf_units_from_stream LSF_CONF_FILENAME
    (get_lsf_units w resource) (fun v => v).
Proof.
  repeat split; intros; unfold get_lsf_units; repeat probe_step; reflexivity.
Qed.

Lemma get_lsf_units_default (resource : bool) :
  defaults_when_silent w get_lsf_units_from_stream LSF_CONF_FILENAME
    (get_lsf_units w resource) (default_units resource).
Proof.
  intros S1 S2 S3. unfold get_lsf_units. repeat probe_step.
  now destruct resource.
Qed.

Lemma per_core_reservation_in_order :
  stops_at_first_answer w per_core_reserve_from_stream LSB_PARAMS_FILENAME
    (per_core_reservation w) eq_Y.
Proof.
  repeat split; intros; unfold per_core_reservation; repeat probe_step;
    bool_result.
Qed.

Lemma per_core_reservation_default :
  defaults_when_silent w per_core_reserve_from_stream LSB_PARAMS_FILENAME
    (per_core_reservation w) false.
Proof.
  intros S1 S2 S3. unfold per_core_reservation. repeat probe_step. reflexivity.
Qed.

Lemma parallel_sched_by_slot_in_order :
  stops_at_first_answer w parallel_sched_by_slot_from_stream LSB_PARAMS_FILENAME
    (parallel_sched_by_slot w) eq_Y.
Proof.
  repeat split; intros; unfold parallel_sched_by_slot; repeat probe_step;
    bool_result.
Qed.

Lemma parallel_sched_by_slot_default :
  defaults_when_silent w parallel_sched_by_slot_from_stream LSB_PARAMS_FILENAME
    (parallel_sched_by_slot w) false.
Proof.
  intros S1 S2 S3. unfold parallel_sched_by_slot. repeat probe_step. reflexivity.
Qed.

(** Either some probe is the first to answer, or all are silent, or
    opening a configuration file raised. *)
Lemma chain_cases (fn : list string -> option string) (conf_filename : string) :
  (exists v, first_answer w fn conf_filename v) \/
  all_silent w fn conf_filename \/
  (silent (apply_bparams w fn) /\ silent (apply_lsadmin w fn) /\
   exists e, apply_conf_file w fn conf_filename = Raise e).
Proof.
  unfold first_answer, all_silent.
  destruct (apply_bparams_total w fn) as [a1 E1].
  destruct (answers_or_silent _ _ E1) as [[v A1] | S1]; [left; eauto|].
  destruct (apply_lsadmin_total w fn) as [a2 E2].
  destruct (answers_or_silent _ _ E2) as [[v A2] | S2]; [left; eauto|].
  destruct (apply_conf_file w fn conf_filename) as [a3|e] eqn:E3.
  - destruct (answers_or_silent _ _ eq_refl : _ \/ silent (Ok a3))
      as [[v A3] | S3]; [left; eauto 6|right; left; auto].
  - right. right. eauto.
Qed.

End Resolvers.

(** ** Priority order (C3) *)

(** C3 (as amended): every config resolver tries its probes in the fixed
    order bparams, lsadmin, configuration file, and stops at the first probe
    that succeeds and holds the target key with a non-empty value; when both
    command probes hold the key with different values and the first one's is
    not empty, the resolver returns the first one's value. *)
Theorem resolvers_stop_at_first_answer (w : World) :
  (forall resource,
     stops_at_first_answer w get_lsf_units_from_stream LSF_CONF_FILENAME
       (get_lsf_units w resource) (fun v => v)) /\
  stops_at_first_answer w per_core_reserve_from_stream LSB_PARAMS_FILENAME
    (per_core_reservation w) eq_Y /\
  stops_at_first_answer w parallel_sched_by_slot_from_stream LSB_PARAMS_FILENAME
    (parallel_sched_by_slot w) eq_Y /\
  (forall resource out1 out2 v1 v2,
     check_output w bparams_cmd = Ok out1 ->
     check_output w lsadmin_cmd = Ok out2 ->
     get_lsf_units_from_stream (lines_of out1) = Some v1 ->
     get_lsf_units_from_stream (lines_of out2) = Some v2 ->
     v1 <> v2 -> v1 <> EmptyString ->
     get_lsf_units w resource = Ok v1).
Proof.
  split; [exact (get_lsf_units_in_order w)|].
  split; [exact (per_core_reservation_in_order w)|].
  split; [exact (parallel_sched_by_slot_in_order w)|].
  intros resource out1 out2 v1 v2 O1 _ F1 _ _ Hv.
  apply (proj1 (get_lsf_units_in_order w resource)).
  split; [|exact Hv].
  rewrite (apply_bparams_output _ _ _ O1). now rewrite F1.
Qed.

Lemma resolvers_stop_at_first_answer_witness :
  get_lsf_units
    (sample_world (Ok "LSF_UNIT_FOR_LIMITS = GB") (Ok "LSF_UNIT_FOR_LIMITS = MB")
       None [] []) false
  = Ok "GB".
Proof.
  apply (proj2 (proj2 (proj2 (resolvers_stop_at_first_answer _))))
    with (out1 := "LSF_UNIT_FOR_LIMITS = GB") (out2 := "LSF_UNIT_FOR_LIMITS = MB")
         (v2 := "MB");
    try reflexivity; discriminate.
Defined.

(** C3 fails as stated: the first command probe holds the key with an empty
    value, the second holds it with the value [GB], and the resolver returns
    the second one's value. *)
Lemma first_key_wins_fails : ~ first_key_wins.
Proof.
  intros H.
  specialize (H (sample_world (Ok "LSF_UNIT_FOR_LIMITS =")
                   (Ok "LSF_UNIT_FOR_LIMITS = GB") None [] [])
                false "LSF_UNIT_FOR_LIMITS =" "LSF_UNIT_FOR_LIMITS = GB"
                EmptyString "GB" eq_refl eq_refl eq_refl eq_refl).
  vm_compute in H.
  assert (E : @Ok string "GB" = Ok EmptyString) by (apply H; discriminate).
  discriminate E.
Qed.

(** ** Defaults (C4) *)

(** C4 (as amended): a resolver returns its default exactly when every probe
    is unavailable, holds no matching key, or holds it with an empty value.
    With both command probes unavailable, a configuration file that holds
    the key with a non-empty value gives the returned value; when no probe
    answers, [get_lsf_units] returns [MB] in resource-request mode and [KB]
    in hard-limit mode, and the two boolean resolvers return false. *)
Theorem resolvers_default_when_no_answer (w : World) :
  (forall resource lines v,
     unavailable w bparams_cmd -> unavailable w lsadmin_cmd ->
     conf_file_found w LSF_CONF_FILENAME "LSF_CONFDIR" lines ->
     get_lsf_units_from_stream lines = Some v -> v <> EmptyString ->
     get_lsf_units w resource = Ok v) /\
  (forall resource lines v,
     unavailable w bparams_cmd -> unavailable w lsadmin_cmd ->
     conf_env_silent w get_lsf_units_from_stream LSF_CONF_FILENAME "LSF_CONFDIR" ->
     conf_file_found w LSF_CONF_FILENAME "LSF_ENVDIR" lines ->
     get_lsf_units_from_stream lines = Some v -> v <> EmptyString ->
     get_lsf_units w resource = Ok v) /\
  (forall resource,
     all_silent w get_lsf_units_from_stream LSF_CONF_FILENAME ->
     get_lsf_units w resource = Ok (if resource then "MB" else "KB")) /\
  (forall resource,
     unavailable w bparams_cmd -> unavailable w lsadmin_cmd ->
     get_conf_file w LSF_CONF_FILENAME "LSF_CONFDIR" = None ->
     get_conf_file w LSF_CONF_FILENAME "LSF_ENVDIR" = None ->
     get_lsf_units w resource = Ok (if resource then "MB" else "KB")) /\
  (forall resource u,
     get_lsf_units w resource = Ok u ->
     first_answer w get_lsf_units_from_stream LSF_CONF_FILENAME u \/
     (all_silent w get_lsf_units_from_stream LSF_CONF_FILENAME /\
      u = default_units resource)) /\
  (all_silent w per_core_reserve_from_stream LSB_PARAMS_FILENAME ->
   per_core_reservation w = Ok false) /\
  (all_silent w parallel_sched_by_slot_from_stream LSB_PARAMS_FILENAME ->
   parallel_sched_by_slot w = Ok false).
Proof.
  assert (NE : LSF_CONF_FILENAME <> EmptyString) by discriminate.
  repeat apply conj.
  - intros resource lines v U1 U2 C F Hv.
    apply (proj2 (proj2 (get_lsf_units_in_order w resource))).
    + apply silent_None, apply_bparams_unavailable, U1.
    + apply silent_None, apply_lsadmin_unavailable, U2.
    + apply (apply_conf_file_confdir w _ _ NE lines); assumption.
  - intros resource lines v U1 U2 S C F Hv.
    apply (proj2 (proj2 (get_lsf_units_in_order w resource))).
    + apply silent_None, apply_bparams_unavailable, U1.
    + apply silent_None, apply_lsadmin_unavailable, U2.
    + apply (apply_conf_file_envdir w _ _ NE lines); assumption.
  - intros resource (S1 & S2 & S3).
    rewrite (get_lsf_units_default w resource S1 S2 S3). now destruct resource.
  - intros resource U1 U2 G1 G2.
    rewrite (get_lsf_units_default w resource).
    + now destruct resource.
    + apply silent_None, apply_bparams_unavailable, U1.
    + apply silent_None, apply_lsadmin_unavailable, U2.
    + apply silent_None, (apply_conf_file_silent w _ _ NE); now left.
  - intros resource u R.
    destruct (chain_cases w get_lsf_units_from_stream LSF_CONF_FILENAME)
      as [[v A] | [S | (S1 & S2 & e & E)]].
    + left. assert (R' : get_lsf_units w resource = Ok v).
      { destruct (get_lsf_units_in_order w resource) as (P1 & P2 & P3).
        destruct A as [A | [[S1 A] | (S1 & S2 & A)]]; auto. }
      rewrite R' in R. injection R as <-. exact A.
    + right. split; [exact S|]. destruct S as (S1 & S2 & S3).
      rewrite (get_lsf_units_default w resource S1 S2 S3) in R.
      now injection R as <-.
    + exfalso. revert R. unfold get_lsf_units. repeat probe_step.
      rewrite E. discriminate.
  - intros (S1 & S2 & S3). now apply per_core_reservation_default.
  - intros (S1 & S2 & S3). now apply parallel_sched_by_slot_default.
Qed.

Lemma resolvers_default_when_no_answer_witness :
  get_lsf_units
    (sample_world (Raise OSError) (Raise (CalledProcessError 1))
       (Some "/opt/lsf/conf") ["# units" ++ LF; "LSF_UNIT_FOR_LIMITS=GB" ++ LF] [])
    true = Ok "GB" /\
  get_lsf_units bare_world true = Ok "MB" /\
  get_lsf_units bare_world false = Ok "KB".
Proof.
  split; [|split].
  - apply (proj1 (resolvers_default_when_no_answer _))
      with (lines := ["# units" ++ LF; "LSF_UNIT_FOR_LIMITS=GB" ++ LF]).
    + exists OSError. reflexivity.
    + exists (CalledProcessError 1). reflexivity.
    + exists "/opt/lsf/conf/cluster/lsf.conf". split; reflexivity.
    + reflexivity.
    + discriminate.
  - apply (proj1 (proj2 (proj2 (proj2 (resolvers_default_when_no_answer bare_world)))) true);
      try reflexivity; eexists; reflexivity.
  - apply (proj1 (proj2 (proj2 (proj2 (resolvers_default_when_no_answer bare_world)))) false);
      try reflexivity; eexists; reflexivity.
Defined.

(** C4 fails as stated: both commands are unavailable and the file found
    through [LSF_CONFDIR] holds the key with an empty value; the resolver
    returns the default [KB], not the value of the file. *)
Lemma file_key_wins_fails : ~ file_key_wins.
Proof.
  intros H.
  assert (E : get_lsf_units
                (sample_world (Raise OSError) (Raise OSError) (Some "/opt/lsf/conf")
                   ["LSF_UNIT_FOR_LIMITS=" ++ LF] []) false = Ok EmptyString).
  { apply H with (lines := ["LSF_UNIT_FOR_LIMITS=" ++ LF]).
    - exists OSError. reflexivity.
    - exists OSError. reflexivity.
    - exists "/opt/lsf/conf/cluster/lsf.conf". split; reflexivity.
    - reflexivity. }
  vm_compute in E. discriminate E.
Qed.

(** ** Command probes never raise (C7) *)

(** C7: the command probes [apply_bparams] and [apply_lsadmin] never raise:
    whatever exception running the command raises (binary missing, non-zero
    exit, I/O error), the probe returns [None], and resolution goes on with
    the next probe or the default. *)
Theorem command_probes_never_raise (w : World) (fn : list string -> option string) :
  (exists a, apply_bparams w fn = Ok a) /\
  (exists a, apply_lsadmin w fn = Ok a) /\
  (forall e, check_output w bparams_cmd = Raise e -> apply_bparams w fn = Ok None) /\
  (forall e, check_output w lsadmin_cmd = Raise e -> apply_lsadmin w fn = Ok None) /\
  (forall resource v,
     unavailable w bparams_cmd ->
     answers (apply_lsadmin w get_lsf_units_from_stream) v ->
     get_lsf_units w resource = Ok v) /\
  (forall resource v,
     unavailable w bparams_cmd -> unavailable w lsadmin_cmd ->
     answers (apply_conf_file w get_lsf_units_from_stream LSF_CONF_FILENAME) v ->
     get_lsf_units w resource = Ok v) /\
  (forall resource,
     unavailable w bparams_cmd -> unavailable w lsadmin_cmd ->
     silent (apply_conf_file w get_lsf_units_from_stream LSF_CONF_FILENAME) ->
     get_lsf_units w resource = Ok (default_units resource)) /\
  (unavailable w bparams_cmd -> unavailable w lsadmin_cmd ->
   silent (apply_conf_file w per_core_reserve_from_stream LSB_PARAMS_FILENAME) ->
   per_core_reservation w = Ok false) /\
  (unavailable w bparams_cmd -> unavailable w lsadmin_cmd ->
   silent (apply_conf_file w parallel_sched_by_slot_from_stream LSB_PARAMS_FILENAME) ->
   parallel_sched_by_slot w = Ok false).
Proof.
  repeat apply conj.
  - apply apply_bparams_total.
  - apply apply_lsadmin_total.
  - intros e E. apply apply_bparams_unavailable. now exists e.
  - intros e E. apply apply_lsadmin_unavailable. now exists e.
  - intros resource v U1 A.
    apply (proj1 (proj2 (get_lsf_units_in_order w resource))); [|exact A].
    apply silent_None, apply_bparams_unavailable, U1.
  - intros resource v U1 U2 A.
    apply (proj2 (proj2 (get_lsf_units_in_order w resource))); [| |exact A].
    + apply silent_None, apply_bparams_unavailable, U1.
    + apply silent_None, apply_lsadmin_unavailable, U2.
  - intros resource U1 U2 S. apply get_lsf_units_default; [| |exact S].
    + apply silent_None, apply_bparams_unavailable, U1.
    + apply silent_None, apply_lsadmin_unavailable, U2.
  - intros U1 U2 S. apply per_core_reservation_default; [| |exact S].
    + apply silent_None, apply_bparams_unavailable, U1.
    + apply silent_None, apply_lsadmin_unavailable, U2.
  - intros U1 U2 S. apply parallel_sched_by_slot_default; [| |exact S].
    + apply silent_None, apply_bparams_unavailable, U1.
    + apply silent_None, apply_lsadmin_unavailable, U2.
Qed.

Lemma command_probes_never_raise_witness :
  apply_bparams bare_world get_lsf_units_from_stream = Ok None /\
  apply_lsadmin bare_world get_lsf_units_from_stream = Ok None /\
  get_lsf_units
    (sample_world (Raise OSError) (Ok "LSF_UNIT_FOR_LIMITS = GB") None [] []) false
  = Ok "GB" /\
  get_lsf_units bare_world false = Ok "KB".
Proof.
  pose proof (command_probes_never_raise bare_world get_lsf_units_from_stream)
    as (_ & _ & B & L & _ & _ & D & _).
  split; [apply (B OSError); reflexivity|].
  split; [apply (L (CalledProcessError 255)); reflexivity|].
  split.
  - apply (proj1 (proj2 (proj2 (proj2 (proj2
             (command_probes_never_raise _ get_lsf_units_from_stream)))))).
    + exists OSError. reflexivity.
    + split; [reflexivity|discriminate].
  - apply (D false).
    + exists OSError. reflexivity.
    + exists (CalledProcessError 255). reflexivity.
    + exists None. split; reflexivity.
Defined.

(** ** An empty value is no answer (C10) *)

Lemma silent_empty (p : pyresult (option string)) :
  p = Ok (Some EmptyString) -> silent p.
Proof. intros ->. now exists (Some EmptyString). Qed.

Lemma fail_command_bparams (w : World) (fn : list string -> option string) :
  apply_bparams (fail_command w bparams_cmd) fn = Ok None /\
  apply_lsadmin (fail_command w bparams_cmd) fn = apply_lsadmin w fn.
Proof. split; reflexivity. Qed.

Lemma fail_command_lsadmin (w : World) (fn : list string -> option string) :
  apply_bparams (fail_command w lsadmin_cmd) fn = apply_bparams w fn /\
  apply_lsadmin (fail_command w lsadmin_cmd) fn = Ok None.
Proof. split; reflexivity. Qed.

Lemma fail_command_conf_file (w : World) (cmd : list string)
    (fn : list string -> option string) (conf_filename : string) :
  apply_conf_file (fail_command w cmd) fn conf_filename
  = apply_conf_file w fn conf_filename.
Proof. reflexivity. Qed.

(** C10: when a probe's output holds the target key with an empty value,
    the resolver does not stop there: the empty answer counts as no answer,
    exactly as if the probe were unavailable; the lower-priority probes are
    tried, and the default is returned when none gives a non-empty value. *)
Theorem empty_value_is_no_answer (w : World) :
  (forall resource out,
     check_output w bparams_cmd = Ok out ->
     get_lsf_units_from_stream (lines_of out) = Some EmptyString ->
     get_lsf_units w resource = get_lsf_units (fail_command w bparams_cmd) resource) /\
  (forall resource out,
     check_output w lsadmin_cmd = Ok out ->
     get_lsf_units_from_stream (lines_of out) = Some EmptyString ->
     get_lsf_units w resource = get_lsf_units (fail_command w lsadmin_cmd) resource) /\
  (forall resource out v,
     check_output w bparams_cmd = Ok out ->
     get_lsf_units_from_stream (lines_of out) = Some EmptyString ->
     answers (apply_lsadmin w get_lsf_units_from_stream) v ->
     get_lsf_units w resource = Ok v) /\
  (forall resource out v,
     check_output w bparams_cmd = Ok out ->
     get_lsf_units_from_stream (lines_of out) = Some EmptyString ->
     silent (apply_lsadmin w get_lsf_units_from_stream) ->
     answers (apply_conf_file w get_lsf_units_from_stream LSF_CONF_FILENAME) v ->
     get_lsf_units w resource = Ok v) /\
  (forall resource out,
     check_output w bparams_cmd = Ok out ->
     get_lsf_units_from_stream (lines_of out) = Some EmptyString ->
     silent (apply_lsadmin w get_lsf_units_from_stream) ->
     silent (apply_conf_file w get_lsf_units_from_stream LSF_CONF_FILENAME) ->
     get_lsf_units w resource = Ok (default_units resource)) /\
  (forall env rest lines,
     conf_file_found w LSF_CONF_FILENAME env lines ->
     get_lsf_units_from_stream lines = Some EmptyString ->
     apply_conf_file_loop w get_lsf_units_from_stream (env :: rest) LSF_CONF_FILENAME
     = apply_conf_file_loop w get_lsf_units_from_stream rest LSF_CONF_FILENAME).
Proof.
  assert (B : forall out,
             check_output w bparams_cmd = Ok out ->
             get_lsf_units_from_stream (lines_of out) = Some EmptyString ->
             apply_bparams w get_lsf_units_from_stream = Ok (Some EmptyString)).
  { intros out O F. now rewrite (apply_bparams_output _ _ _ O), F. }
  repeat apply conj.
  - intros resource out O F. unfold get_lsf_units.
    destruct (fail_command_bparams w get_lsf_units_from_stream) as [-> ->].
    rewrite (B out O F), fail_command_conf_file. reflexivity.
  - intros resource out O F. unfold get_lsf_units.
    destruct (fail_command_lsadmin w get_lsf_units_from_stream) as [-> ->].
    rewrite (apply_lsadmin_output _ _ _ O), F, fail_command_conf_file.
    destruct (apply_bparams w get_lsf_units_from_stream) as [a|e]; [|reflexivity].
    cbn [bind]. destruct (PyStr.truthy a); reflexivity.
  - intros resource out v O F A.
    apply (proj1 (proj2 (get_lsf_units_in_order w resource))); [|exact A].
    apply silent_empty, (B out O F).
  - intros resource out v O F S A.
    apply (proj2 (proj2 (get_lsf_units_in_order w resource))); [|exact S|exact A].
    apply silent_empty, (B out O F).
  - intros resource out O F S2 S3.
    apply get_lsf_units_default; [|exact S2|exact S3].
    apply silent_empty, (B out O F).
  - intros env rest lines C F.
    apply apply_conf_file_loop_skip; [discriminate|].
    right. exists lines. split; [exact C|]. now rewrite F.
Qed.

Lemma empty_value_is_no_answer_witness :
  get_lsf_units
    (sample_world (Ok "LSF_UNIT_FOR_LIMITS =") (Ok "LSF_UNIT_FOR_LIMITS = GB")
       None [] []) false = Ok "GB" /\
  get_lsf_units
    (sample_world (Ok "LSF_UNIT_FOR_LIMITS =") (Raise OSError)
       (Some "/opt/lsf/conf") ["LSF_UNIT_FOR_LIMITS = " ++ LF] []) true = Ok "MB".
Proof.
  split.
  - apply (proj1 (proj2 (proj2 (empty_value_is_no_answer _))))
      with (out := "LSF_UNIT_FOR_LIMITS =").
    + reflexivity.
    + reflexivity.
    + split; [reflexivity|discriminate].
  - apply (proj1 (proj2 (proj2 (proj2 (proj2 (empty_value_is_no_answer _)))))
             true "LSF_UNIT_FOR_LIMITS =").
    + reflexivity.
    + reflexivity.
    + exists None. split; reflexivity.
    + exists None. split; reflexivity.
Defined.

(** ** Lines of the form [KEY=value] *)

Section KeyLines.

Variable sep : ascii.

Lemma count_append (a b : string) :
  PyStr.count sep (a ++ b) = (PyStr.count sep a + PyStr.count sep b)%nat.
Proof.
  induction a as [|c a IH]; simpl; [reflexivity|].
  destruct (Ascii.eqb c sep); simpl; now rewrite IH.
Qed.

Lemma before_append (a b : string) :
  PyStr.count sep a = O -> PyStr.before sep (a ++ String sep b) = a.
Proof.
  induction a as [|c a IH]; simpl.
  - now rewrite Ascii.eqb_refl.
  - destruct (Ascii.eqb c sep); [discriminate|]. intros H. now rewrite IH.
Qed.

Lemma after_append (a b : string) :
  PyStr.count sep a = O -> PyStr.after sep (a ++ String sep b) = b.
Proof.
  induction a as [|c a IH]; simpl.
  - now rewrite Ascii.eqb_refl.
  - destruct (Ascii.eqb c sep); [discriminate|]. exact IH.
Qed.

End KeyLines.

Lemma key_line_entry (key raw : string) :
  PyStr.startswith "#" key = false -> key <> EmptyString ->
  PyStr.count "=" key = O -> PyStr.count "=" raw = O ->
  tokenize_conf_stream [key ++ "=" ++ raw] = [(PyStr.strip key, PyStr.strip raw)].
Proof.
  intros Hc Hk Ck Cr. rewrite tokenize_line. unfold entry_of_line.
  assert (S : PyStr.startswith "#" (key ++ "=" ++ raw) = false).
  { destruct key as [|c key]; [congruence|]. exact Hc. }
  rewrite S, count_append, Ck. simpl PyStr.count. rewrite Cr. simpl.
  change (String "=" raw) with (String "="%char raw).
  now rewrite before_append, after_append.
Qed.

Lemma lines_of_single (line : string) :
  PyStr.count (ascii_of_nat 10) line = O -> lines_of line = [line].
Proof. apply split_count_0. Qed.

Lemma upper_not_empty (s : string) : s <> EmptyString -> PyStr.upper s <> EmptyString.
Proof. destruct s; [congruence|discriminate]. Qed.

Lemma first_entry_origin (key : string) (stream : list string) (v : string) :
  first_entry key (tokenize_conf_stream stream) = Some v ->
  exists line k raw,
    In line stream /\ PyStr.startswith "#" line = false /\
    PyStr.split "=" line = [k; raw] /\
    PyStr.strip k = key /\ v = PyStr.strip raw.
Proof.
  induction stream as [|line rest IH]; [discriminate|].
  assert (K : first_entry key (tokenize_conf_stream rest) = Some v ->
              exists line0 k raw,
                In line0 (line :: rest) /\ PyStr.startswith "#" line0 = false /\
                PyStr.split "=" line0 = [k; raw] /\
                PyStr.strip k = key /\ v = PyStr.strip raw).
  { intros H. destruct (IH H) as (l & k & raw & I & R). exists l, k, raw.
    split; [now right|exact R]. }
  cbn [tokenize_conf_stream].
  destruct (PyStr.startswith "#" line) eqn:C; [exact K|].
  destruct (PyStr.split "=" line) as [|k [|raw [|x l]]] eqn:E; try exact K.
  cbn [first_entry]. destruct (String.eqb (PyStr.strip k) key) eqn:Q; [|exact K].
  intros H. injection H as <-. apply String.eqb_eq in Q.
  exists line, k, raw. repeat split; auto. now left.
Qed.

Lemma first_answer_resolves (w : World) (fn : list string -> option string)
    (conf_filename : string) (X : Type) (resolver : pyresult X)
    (decode : string -> X) (v : string) :
  stops_at_first_answer w fn conf_filename resolver decode ->
  first_answer w fn conf_filename v ->
  resolver = Ok (decode v).
Proof.
  intros (P1 & P2 & P3) [A | [[S1 A] | (S1 & S2 & A)]]; auto.
Qed.

(** ** Boolean policy flags (C8) *)

Lemma per_core_reserve_key_line (raw : string) :
  PyStr.count "=" raw = O ->
  per_core_reserve_from_stream ["RESOURCE_RESERVE_PER_SLOT" ++ "=" ++ raw]
  = Some (PyStr.upper (PyStr.strip raw)).
Proof.
  intros C. unfold per_core_reserve_from_stream.
  rewrite key_line_entry; [reflexivity|reflexivity|discriminate|reflexivity|exact C].
Qed.

Lemma parallel_sched_key_line (raw : string) :
  PyStr.count "=" raw = O ->
  parallel_sched_by_slot_from_stream ["PARALLEL_SCHED_BY_SLOT" ++ "=" ++ raw]
  = Some (PyStr.upper (PyStr.strip raw)).
Proof.
  intros C. unfold parallel_sched_by_slot_from_stream.
  rewrite key_line_entry; [reflexivity|reflexivity|discriminate|reflexivity|exact C].
Qed.

(** C8: for the boolean resolvers [per_core_reservation] and
    [parallel_sched_by_slot], the value read for the key is trimmed and put
    in upper case; the resolved value, that of the first probe that answers,
    yields true when it is [Y] (so for [y], [Y] and [Y ] in the
    configuration) and false otherwise; when no probe answers, because the
    key is absent or its value empty, the result is false, the default. *)
Theorem boolean_flags_compare_with_Y (w : World) :
  (forall raw, PyStr.count "=" raw = O ->
     per_core_reserve_from_stream ["RESOURCE_RESERVE_PER_SLOT" ++ "=" ++ raw]
     = Some (PyStr.upper (PyStr.strip raw)) /\
     parallel_sched_by_slot_from_stream ["PARALLEL_SCHED_BY_SLOT" ++ "=" ++ raw]
     = Some (PyStr.upper (PyStr.strip raw))) /\
  (forall v, first_answer w per_core_reserve_from_stream LSB_PARAMS_FILENAME v ->
     per_core_reservation w = Ok (String.eqb v "Y")) /\
  (forall v, first_answer w parallel_sched_by_slot_from_stream LSB_PARAMS_FILENAME v ->
     parallel_sched_by_slot w = Ok (String.eqb v "Y")) /\
  (all_silent w per_core_reserve_from_stream LSB_PARAMS_FILENAME ->
   per_core_reservation w = Ok false) /\
  (all_silent w parallel_sched_by_slot_from_stream LSB_PARAMS_FILENAME ->
   parallel_sched_by_slot w = Ok false) /\
  (forall raw,
     check_output w bparams_cmd = Ok ("RESOURCE_RESERVE_PER_SLOT" ++ "=" ++ raw) ->
     PyStr.count "=" raw = O -> PyStr.count (ascii_of_nat 10) raw = O ->
     PyStr.strip raw <> EmptyString ->
     per_core_reservation w = Ok (String.eqb (PyStr.upper (PyStr.strip raw)) "Y")) /\
  (forall raw,
     check_output w bparams_cmd = Ok ("PARALLEL_SCHED_BY_SLOT" ++ "=" ++ raw) ->
     PyStr.count "=" raw = O -> PyStr.count (ascii_of_nat 10) raw = O ->
     PyStr.strip raw <> EmptyString ->
     parallel_sched_by_slot w = Ok (String.eqb (PyStr.upper (PyStr.strip raw)) "Y")) /\
  (PyStr.upper (PyStr.strip "y") = "Y" /\ PyStr.upper (PyStr.strip "Y") = "Y" /\
   PyStr.upper (PyStr.strip "Y ") = "Y").
Proof.
  split.
  { intros raw C. split;
      [now apply per_core_reserve_key_line|now apply parallel_sched_key_line]. }
  repeat apply conj; try reflexivity.
  - intros v A.
    apply (first_answer_resolves _ _ _ _ _ eq_Y v (per_core_reservation_in_order w) A).
  - intros v A.
    apply (first_answer_resolves _ _ _ _ _ eq_Y v (parallel_sched_by_slot_in_order w) A).
  - intros (S1 & S2 & S3). now apply per_core_reservation_default.
  - intros (S1 & S2 & S3). now apply parallel_sched_by_slot_default.
  - intros raw O C1 C2 Hv.
    apply (proj1 (per_core_reservation_in_order w)).
    split; [|now apply upper_not_empty].
    rewrite (apply_bparams_output _ _ _ O), lines_of_single.
    + now rewrite per_core_reserve_key_line.
    + rewrite !count_append, C2. reflexivity.
  - intros raw O C1 C2 Hv.
    apply (proj1 (parallel_sched_by_slot_in_order w)).
    split; [|now apply upper_not_empty].
    rewrite (apply_bparams_output _ _ _ O), lines_of_single.
    + now rewrite parallel_sched_key_line.
    + rewrite !count_append, C2. reflexivity.
Qed.

Lemma boolean_flags_compare_with_Y_witness :
  per_core_reservation
    (sample_world (Ok "RESOURCE_RESERVE_PER_SLOT= y ") (Raise OSError) None [] [])
  = Ok true /\
  per_core_reservation
    (sample_world (Ok "RESOURCE_RESERVE_PER_SLOT=Yes") (Raise OSError) None [] [])
  = Ok false /\
  parallel_sched_by_slot
    (sample_world (Raise OSError) (Ok "PARALLEL_SCHED_BY_SLOT = Y") None [] [])
  = Ok true /\
  per_core_reservation
    (sample_world (Ok "RESOURCE_RESERVE_PER_SLOT =") (Raise OSError) None [] [])
  = Ok false /\
  per_core_reservation bare_world = Ok false.
Proof.
  repeat apply conj.
  - apply (proj1 (proj2 (proj2 (proj2 (proj2 (proj2
             (boolean_flags_compare_with_Y _)))))) " y ");
      try reflexivity; discriminate.
  - apply (proj1 (proj2 (proj2 (proj2 (proj2 (proj2
             (boolean_flags_compare_with_Y _)))))) "Yes");
      try reflexivity; discriminate.
  - apply (proj1 (proj2 (proj2 (boolean_flags_compare_with_Y _))) "Y").
    right. left. split.
    + exists None. split; reflexivity.
    + split; [reflexivity|discriminate].
  - apply (proj1 (proj2 (proj2 (proj2 (boolean_flags_compare_with_Y _))))).
    repeat split.
    + exists (Some EmptyString). split; reflexivity.
    + exists None. split; reflexivity.
    + exists None. split; reflexivity.
  - apply (proj1 (proj2 (proj2 (proj2 (boolean_flags_compare_with_Y _))))).
    repeat split; exists None; split; reflexivity.
Defined.

(** ** Invalid units (C5) *)

Lemma dict_get_UNITS_None (unit : string) :
  ~ In unit (map fst UNITS) -> dict_get UNITS unit = None.
Proof.
  intros H. unfold UNITS, dict_get.
  repeat match goal with
         | |- context [String.eqb ?k unit] =>
             destruct (String.eqb_spec k unit) as [E|_];
             [exfalso; apply H; rewrite <- E; simpl; tauto|]
         end.
  reflexivity.
Qed.

Lemma dict_get_UNITS_Some (unit : string) (e : Z) :
  In (unit, e) unit_table -> dict_get UNITS unit = Some e.
Proof.
  unfold unit_table. simpl.
  intros [H|[H|[H|[H|[H|[]]]]]]; injection H as <- <-; reflexivity.
Qed.

(** C5: for every value [x] and every unit symbol outside B, KB, MB, GB, TB,
    [convert_mb x unit] fails with the assertion error whose message starts
    with the offending symbol and lists every valid symbol; no default unit
    is substituted. *)
Theorem convert_mb_invalid_unit (x : PyNum.t) (unit : string) :
  ~ In unit ["B"; "KB"; "MB"; "GB"; "TB"] ->
  convert_mb x unit = Raise (AssertionError (invalid_unit_message unit)) /\
  (exists rest, invalid_unit_message unit = unit ++ rest) /\
  (forall u, In u ["B"; "KB"; "MB"; "GB"; "TB"] ->
     occurs_in ("'" ++ u ++ "'") (invalid_unit_message unit)).
Proof.
  intros H. split; [|split].
  - unfold convert_mb. now rewrite (dict_get_UNITS_None unit H).
  - eexists. reflexivity.
  - intros u Hu. unfold occurs_in, invalid_unit_message.
    simpl in Hu.
    destruct Hu as [<-|[<-|[<-|[<-|[<-|[]]]]]].
    + exists (unit ++ " not a valid unit, valid units are ["),
        ", 'KB', 'MB', 'GB', 'TB'].".
      now rewrite append_assoc.
    + exists (unit ++ " not a valid unit, valid units are ['B', "),
        ", 'MB', 'GB', 'TB'].".
      now rewrite append_assoc.
    + exists (unit ++ " not a valid unit, valid units are ['B', 'KB', "),
        ", 'GB', 'TB'].".
      now rewrite append_assoc.
    + exists (unit ++ " not a valid unit, valid units are ['B', 'KB', 'MB', "),
        ", 'TB'].".
      now rewrite append_assoc.
    + exists (unit ++ " not a valid unit, valid units are ['B', 'KB', 'MB', 'GB', "),
        "].".
      now rewrite append_assoc.
Qed.

Lemma convert_mb_invalid_unit_witness :
  convert_mb (PyInt 1024) "bogus"
  = Raise (AssertionError
             "bogus not a valid unit, valid units are ['B', 'KB', 'MB', 'GB', 'TB'].").
Proof.
  apply (convert_mb_invalid_unit (PyInt 1024) "bogus").
  simpl. intros [H|[H|[H|[H|[H|[]]]]]]; discriminate H.
Defined.

(** ** Doubles: integers below 2^53 and powers of two *)

Lemma digits2_pos_iter (p n : positive) :
  digits2_pos (Pos.iter xO p n) = (digits2_pos p + n)%positive.
Proof.
  induction n as [|n IH] using Pos.peano_ind.
  - simpl. lia.
  - rewrite Pos.iter_succ. simpl. rewrite IH. lia.
Qed.

Lemma Zpos_iter (p n : positive) :
  Z.pos (Pos.iter xO p n) = Z.pos p * 2 ^ Z.pos n.
Proof.
  induction n as [|n IH] using Pos.peano_ind.
  - simpl. lia.
  - rewrite Pos.iter_succ, Pos2Z.inj_xO, IH, Pos2Z.inj_succ, Z.pow_succ_r; lia.
Qed.

Lemma digits2_pos_size (p : positive) : digits2_pos p = Pos.size p.
Proof. induction p; simpl; congruence. Qed.

Lemma digits2_pos_bound (p : positive) :
  Z.pos p < 2 ^ 53 -> Z.pos (digits2_pos p) <= 53.
Proof.
  intros H. rewrite digits2_pos_size.
  destruct (Z.le_gt_cases (Z.pos (Pos.size p)) 53) as [L|G]; [exact L|exfalso].
  pose proof (Pos.size_le p) as S.
  assert (2 ^ 54 <= 2 ^ Z.pos (Pos.size p)) by (apply Z.pow_le_mono_r; lia).
  assert (Z.pos (2 ^ Pos.size p) <= Z.pos p~0) by exact S.
  rewrite Pos2Z.inj_pow in H1. change (Z.pos 2) with 2 in H1. lia.
Qed.

Lemma fexp_normal (e : Z) : -1021 <= e -> fexp prec emax e = e - 53.
Proof. intros H. unfold fexp, emin, prec, emax. lia. Qed.

Lemma shr_fexp_normal (M : positive) (E : Z) :
  digits2_pos M = 53%positive -> -1074 <= E ->
  shr_fexp prec emax (Z.pos M) E loc_Exact
  = (Build_shr_record (Z.pos M) false false, E).
Proof.
  intros D B. unfold shr_fexp. cbn [Zdigits2]. rewrite D, fexp_normal by lia.
  replace (53 + E - 53 - E) with 0 by lia. reflexivity.
Qed.

Lemma leb_emax (E : Z) : E <= 971 -> (E <=? emax - prec) = true.
Proof. intros H. apply Z.leb_le. unfold emax, prec. lia. Qed.

Lemma binary_round_aux_normal (s : bool) (M : positive) (E : Z) :
  digits2_pos M = 53%positive -> -1074 <= E <= 971 ->
  binary_round_aux prec emax s (Z.pos M) E loc_Exact = S754_finite s M E.
Proof.
  intros D B. unfold binary_round_aux.
  rewrite (shr_fexp_normal M E D) by lia.
  cbn [shr_m loc_of_shr_record round_nearest_even].
  rewrite (shr_fexp_normal M E D) by lia. cbn [shr_m].
  now rewrite leb_emax by lia.
Qed.

Lemma div_eucl_div_mod (a b : Z) : Z.div_eucl a b = (a / b, a mod b).
Proof. unfold Z.div, Z.modulo. now destruct (Z.div_eucl a b). Qed.


Lemma SFdiv_core_pow2 (M : positive) (E k : Z) :
  digits2_pos M = 53%positive -> -1073 <= E - k ->
  SFdiv_core_binary prec emax (Z.pos M) E (Z.pos two52) (k - 52)
  = (Z.pos M~0, E - k - 1, loc_Exact).
Proof.
  intros D B. unfold SFdiv_core_binary. cbn [Zdigits2]. rewrite D.
  change (Z.pos (digits2_pos two52)) with 53.
  replace (Z.min (fexp prec emax (53 + E - (53 + (k - 52)))) (E - (k - 52)))
    with (E - k - 1) by (unfold fexp, emin, prec, emax; lia).
  replace (E - (k - 52) - (E - k - 1)) with 53 by lia.
  cbv iota. rewrite Z.shiftl_mul_pow2 by lia. rewrite div_eucl_div_mod.
  assert (Q : Z.pos M * 2 ^ 53 = Z.pos M~0 * Z.pos two52).
  { change (2 ^ 53) with (2 * Z.pos two52). rewrite Pos2Z.inj_xO. lia. }
  rewrite Q, Z.div_mul, Z.mod_mul by discriminate.
  reflexivity.
Qed.

Lemma SFdiv_pow2 (M : positive) (E k : Z) :
  digits2_pos M = 53%positive -> -1073 <= E - k <= 971 ->
  SFdiv prec emax (S754_finite false M E) (S754_finite false two52 (k - 52))
  = S754_finite false M (E - k).
Proof.
  intros D B. unfold SFdiv. rewrite (SFdiv_core_pow2 M E k D) by lia.
  cbn [xorb].
  assert (F : shr_fexp prec emax (Z.pos M~0) (E - k - 1) loc_Exact
              = (Build_shr_record (Z.pos M) false false, E - k)).
  { unfold shr_fexp. cbn [Zdigits2 digits2_pos]. rewrite D.
    change (Z.pos (Pos.succ 53)) with 54. rewrite fexp_normal by lia.
    replace (54 + (E - k - 1) - 53 - (E - k - 1)) with 1 by lia.
    cbn. f_equal. lia. }
  unfold binary_round_aux. rewrite F.
  cbn [shr_m loc_of_shr_record round_nearest_even].
  rewrite (shr_fexp_normal M (E - k) D) by lia. cbn [shr_m].
  now rewrite leb_emax by lia.
Qed.

Lemma float_of_pos (p : positive) :
  Z.pos p < 2 ^ 53 ->
  exists M E,
    PyNum.float (PyInt (Z.pos p)) = Ok (S754_finite false M E) /\
    digits2_pos M = 53%positive /\ -52 <= E <= 0 /\
    Z.pos M = Z.pos p * 2 ^ (- E).
Proof.
  intros H. pose proof (digits2_pos_bound p H) as L.
  unfold PyNum.float, binary_normalize, binary_round.
  rewrite fexp_normal by lia.
  unfold shl_align.
  destruct (Z.pos (digits2_pos p) + 0 - 53 - 0) as [|q|q] eqn:S; try lia.
  - exists p, 0. rewrite binary_round_aux_normal by lia.
    repeat split; try lia. 
  - exists (Pos.iter xO p q), (Z.pos (digits2_pos p) + 0 - 53).
    assert (D : digits2_pos (Pos.iter xO p q) = 53%positive).
    { rewrite digits2_pos_iter. lia. }
    rewrite binary_round_aux_normal by (auto; lia).
    repeat split; try lia. rewrite Zpos_iter. f_equal. f_equal. lia.
Qed.


Lemma floor_quotient_Z (v e : Z) :
  -2 <= e <= 2 ->
  floor_quotient (inject_Z v) e = if 0 <=? e then v / 2 ^ (10 * e) else v * 2 ^ (- (10 * e)).
Proof.
  intros H.
  assert (C : e = -2 \/ e = -1 \/ e = 0 \/ e = 1 \/ e = 2) by lia.
  unfold floor_quotient.
  destruct C as [->|[->|[->|[->| ->]]]];
    unfold Qdiv, Qmult, Qinv, Qfloor, inject_Z; cbn -[Z.mul Z.div];
      rewrite ?Z.mul_1_r, ?Z.div_1_r; reflexivity.
Qed.

Lemma truncation_exact (v M E K : Z) :
  0 <= v -> -52 <= E <= 0 -> M = v * 2 ^ (- E) ->
  match E - K with
  | Z.neg p => M / 2 ^ Z.pos p
  | _ => M * 2 ^ (E - K)
  end = if 0 <=? K then v / 2 ^ K else v * 2 ^ (- K).
Proof.
  intros Hv HE ->.
  destruct (E - K) as [|q|q] eqn:S.
  - assert (K = E) by lia. subst K.
    destruct (Z.leb_spec 0 E).
    + assert (E = 0) by lia. subst E. simpl. rewrite Z.div_1_r. lia.
    + simpl. lia.
  - assert (K < 0) by lia.
    destruct (Z.leb_spec 0 K); [lia|].
    rewrite <- Z.mul_assoc, <- Z.pow_add_r by lia. do 2 f_equal. lia.
  - destruct (Z.leb_spec 0 K).
    + replace (Z.pos q) with (K + - E) by lia.
      rewrite Z.pow_add_r by lia.
      rewrite Z.div_mul_cancel_r; [reflexivity| |]; apply Z.pow_nonzero; lia.
    + replace (- E) with (- K + Z.pos q) by lia.
      rewrite Z.pow_add_r, Z.mul_assoc by lia.
      apply Z.div_mul. apply Z.pow_nonzero; lia.
Qed.

Lemma Qpower_1024 (e : Z) : (Qpower (1024 # 1) e == Qpower (2 # 1) (10 * e))%Q.
Proof.
  rewrite Qpower_mult. change (Qpower (2 # 1) 10) with (1024 # 1)%Q. reflexivity.
Qed.

Lemma Qfloor_scaled (M : positive) (n : Z) :
  Qfloor (inject_Z (Z.pos M) * Qpower (2 # 1) n)
  = match n with
    | Z.neg p => Z.pos M / 2 ^ Z.pos p
    | _ => Z.pos M * 2 ^ n
    end.
Proof.
  destruct n as [|p|p].
  - change (Qpower (2 # 1) 0) with 1%Q. rewrite Qmult_1_r, Qfloor_Z. simpl. lia.
  - change (2 # 1)%Q with (inject_Z 2).
    rewrite <- Zpower_Qpower by lia. rewrite <- inject_Z_mult. apply Qfloor_Z.
  - change (Qpower (2 # 1) (Z.neg p)) with (/ Qpower (2 # 1) (Z.pos p))%Q.
    change (2 # 1)%Q with (inject_Z 2).
    rewrite <- Zpower_Qpower by lia.
    assert (P : 0 < 2 ^ Z.pos p) by (apply Z.pow_pos_nonneg; lia).
    destruct (2 ^ Z.pos p) as [|k|k] eqn:K; try lia.
    unfold Qfloor, Qmult, Qinv, inject_Z. simpl.
    now rewrite Pos.mul_1_r.
Qed.

Lemma floor_quotient_double (M : positive) (E e : Z) :
  floor_quotient (double_value M E) e
  = match E - 10 * e with
    | Z.neg p => Z.pos M / 2 ^ Z.pos p
    | _ => Z.pos M * 2 ^ (E - 10 * e)
    end.
Proof.
  rewrite <- Qfloor_scaled. apply Qfloor_comp. unfold double_value.
  rewrite Qpower_1024. unfold Qdiv. rewrite <- Qmult_assoc.
  apply Qmult_comp; [reflexivity|].
  unfold Z.sub. rewrite Qpower_plus by discriminate.
  now rewrite <- Qpower_opp.
Qed.

Lemma digits2_pos_normal (M : positive) :
  2 ^ 52 <= Z.pos M < 2 ^ 53 -> digits2_pos M = 53%positive.
Proof.
  intros [L U]. rewrite digits2_pos_size.
  pose proof (Pos.size_gt M) as G. pose proof (Pos.size_le M) as S.
  assert (G' : Z.pos M < Z.pos (2 ^ Pos.size M)) by exact G.
  assert (S' : Z.pos (2 ^ Pos.size M) <= Z.pos M~0) by exact S.
  rewrite Pos2Z.inj_pow in G', S'. change (Z.pos 2) with 2 in *.
  rewrite Pos2Z.inj_xO in S'.
  destruct (Z.lt_trichotomy (Z.pos (Pos.size M)) 53) as [A|[A|A]].
  - exfalso.
    assert (2 ^ Z.pos (Pos.size M) <= 2 ^ 52) by (apply Z.pow_le_mono_r; lia).
    lia.
  - now injection A.
  - exfalso.
    assert (2 ^ 54 <= 2 ^ Z.pos (Pos.size M)) by (apply Z.pow_le_mono_r; lia).
    change (2 ^ 54) with (2 * 2 ^ 53) in *. lia.
Qed.

Lemma math_pow_1024 (u : string) (e : Z) :
  In (u, e) unit_table ->
  PyNum.math_pow 1024 e = Ok (S754_finite false two52 (10 * e - 52)) /\ -2 <= e <= 2.
Proof.
  unfold unit_table. simpl.
  intros [H|[H|[H|[H|[H|[]]]]]]; injection H as <- <-; split;
    solve [vm_compute; reflexivity | lia].
Qed.

(** ** The memory converter (C1) *)

(** C1 (as amended): for every unit symbol u among B, KB, MB, GB, TB and
    every non-negative quantity v that [float] holds exactly, [convert_mb v u]
    returns [floor (v / 1024 ^ e u)], with e mapping B to -2, KB to -1, MB to
    0, GB to 1 and TB to 2, and the result is not negative.  Such a quantity
    is an integer below 2^53, or a normal double M * 2^E (M from 2^52 to
    2^53 - 1) whose quotient is in the range of the normal doubles
    (-1073 <= E - 10 * e u <= 971).  In particular convert(1024, "MB") = 1024,
    convert(1024, "GB") = 1 and convert(1024, "KB") = 1048576. *)
Theorem convert_mb_floor :
  (forall v u e,
     In (u, e) unit_table -> 0 <= v < 2 ^ 53 ->
     convert_mb (PyInt v) u = Ok (floor_quotient (inject_Z v) e) /\
     0 <= floor_quotient (inject_Z v) e) /\
  (forall M E u e,
     In (u, e) unit_table -> 2 ^ 52 <= Z.pos M < 2 ^ 53 ->
     -1073 <= E - 10 * e <= 971 ->
     convert_mb (PyFloat (S754_finite false M E)) u
     = Ok (floor_quotient (double_value M E) e) /\
     0 <= floor_quotient (double_value M E) e) /\
  convert_mb (PyInt 1024) "MB" = Ok 1024 /\
  convert_mb (PyInt 1024) "GB" = Ok 1 /\
  convert_mb (PyInt 1024) "KB" = Ok 1048576.
Proof.
  split; [|split; [|repeat split; vm_compute; reflexivity]].
  - intros v u e Hu Hv.
    destruct (math_pow_1024 u e Hu) as [P He].
    assert (Q : floor_quotient (inject_Z v) e
                = if 0 <=? 10 * e then v / 2 ^ (10 * e) else v * 2 ^ (- (10 * e))).
    { rewrite floor_quotient_Z by exact He.
      destruct (Z.leb_spec 0 e), (Z.leb_spec 0 (10 * e)); try lia; reflexivity. }
    split.
    + unfold convert_mb. rewrite (dict_get_UNITS_Some u e Hu), P.
      destruct v as [|p|p]; [| |lia].
      * assert (e = -2 \/ e = -1 \/ e = 0 \/ e = 1 \/ e = 2) as C by lia.
        destruct C as [->|[->|[->|[->| ->]]]]; vm_compute; reflexivity.
      * destruct (float_of_pos p (proj2 Hv)) as (M & E & F & D & B & V).
        rewrite F. cbn [bind PyNum.old_div PyNum.truediv PyNum.float PyNum.is_zero].
        rewrite (SFdiv_pow2 M E (10 * e) D) by lia.
        cbn [PyNum.int]. rewrite Q. f_equal.
        apply truncation_exact; [lia|exact B|exact V].
    + rewrite Q. destruct (Z.leb_spec 0 (10 * e)).
      * apply Z.div_pos; [lia|]. apply Z.pow_pos_nonneg; lia.
      * apply Z.mul_nonneg_nonneg; [lia|]. apply Z.pow_nonneg; lia.
  - intros M E u e Hu HM HE.
    destruct (math_pow_1024 u e Hu) as [P He].
    pose proof (digits2_pos_normal M HM) as D.
    rewrite floor_quotient_double. split.
    + unfold convert_mb. rewrite (dict_get_UNITS_Some u e Hu), P.
      cbn [bind PyNum.old_div PyNum.truediv PyNum.float PyNum.is_zero].
      rewrite (SFdiv_pow2 M E (10 * e) D) by lia.
      reflexivity.
    + destruct (E - 10 * e) as [|q|q].
      * lia.
      * apply Z.mul_nonneg_nonneg; [lia|]. apply Z.pow_nonneg; lia.
      * apply Z.div_pos; [lia|]. apply Z.pow_pos_nonneg; lia.
Qed.

Lemma convert_mb_floor_witness :
  (convert_mb (PyInt 5000) "GB" = Ok (floor_quotient (inject_Z 5000) 1) /\
   0 <= floor_quotient (inject_Z 5000) 1) /\
  (convert_mb (PyFloat (S754_finite false 5629499534213120%positive (-41))) "GB"
   = Ok (floor_quotient (double_value 5629499534213120%positive (-41)) 1) /\
   0 <= floor_quotient (double_value 5629499534213120%positive (-41)) 1).
Proof.
  split.
  - apply (proj1 convert_mb_floor 5000 "GB" 1).
    + simpl. tauto.
    + split; [discriminate|reflexivity].
  - apply (proj1 (proj2 convert_mb_floor) 5629499534213120%positive (-41) "GB" 1).
    + simpl. tauto.
    + split; [discriminate|reflexivity].
    + split; discriminate.
Defined.

(** C1 fails as stated: [float] rounds 2^53 + 1 to 2^53, so converting
    that quantity to MB returns 2^53 and not the quantity itself. *)
Lemma convert_mb_floor_fails : ~ convert_mb_floor_everywhere.
Proof.
  intros H. specialize (H (2 ^ 53 + 1) "MB" 0).
  assert (E : convert_mb (PyInt (2 ^ 53 + 1)) "MB"
              = Ok (floor_quotient (inject_Z (2 ^ 53 + 1)) 0)).
  { apply H; [simpl; tauto|lia]. }
  vm_compute in E. discriminate E.
Qed.


(** ** Multiplying by 1024 *)

Lemma digits2_pos_range (M : positive) :
  digits2_pos M = 53%positive -> 2 ^ 52 <= Z.pos M < 2 ^ 53.
Proof.
  intros D. rewrite digits2_pos_size in D.
  pose proof (Pos.size_gt M) as G. pose proof (Pos.size_le M) as L.
  rewrite D in G, L.
  assert (G' : Z.pos M < Z.pos (2 ^ 53)) by exact G.
  assert (L' : Z.pos (2 ^ 53) <= Z.pos M~0) by exact L.
  rewrite Pos2Z.inj_pow in G', L'. change (Z.pos 2) with 2 in *.
  change (Z.pos 53) with 53 in *. rewrite Pos2Z.inj_xO in L'.
  change (2 ^ 53) with (2 * 2 ^ 52) in L'. lia.
Qed.

Lemma normal_unique (M M' : positive) (a b : Z) :
  digits2_pos M = 53%positive -> digits2_pos M' = 53%positive ->
  0 <= a -> 0 <= b -> Z.pos M * 2 ^ a = Z.pos M' * 2 ^ b ->
  M = M' /\ a = b.
Proof.
  intros D D' Ha Hb H.
  pose proof (digits2_pos_range M D) as R.
  pose proof (digits2_pos_range M' D') as R'.
  change (2 ^ 53) with (2 * 2 ^ 52) in R, R'.
  assert (P : forall x y c d, 2 ^ 52 <= x < 2 * 2 ^ 52 -> 2 ^ 52 <= y < 2 * 2 ^ 52 ->
              0 <= c -> c < d -> x * 2 ^ c = y * 2 ^ d -> False).
  { intros x y c d Rx Ry Hc Hd E.
    replace d with (c + (1 + (d - c - 1))) in E by lia.
    rewrite !Z.pow_add_r in E by lia.
    assert (0 < 2 ^ c) by (apply Z.pow_pos_nonneg; lia).
    assert (0 < 2 ^ (d - c - 1)) by (apply Z.pow_pos_nonneg; lia).
    change (2 ^ 1) with 2 in E.
    assert (x = y * (2 * 2 ^ (d - c - 1))) by nia. nia. }
  destruct (Z.lt_trichotomy a b) as [L|[E|G]].
  - exfalso. exact (P _ _ _ _ R R' Ha L H).
  - subst b. split; [|reflexivity].
    assert (0 < 2 ^ a) by (apply Z.pow_pos_nonneg; lia).
    assert (Z.pos M = Z.pos M') by nia. congruence.
  - exfalso. symmetry in H. exact (P _ _ _ _ R' R Hb G H).
Qed.

Lemma SFmul_1024 (M : positive) (E : Z) :
  digits2_pos M = 53%positive -> -1084 <= E <= 961 ->
  SFmul prec emax (S754_finite false M E) float_1024 = S754_finite false M (E + 10).
Proof.
  intros D B. unfold SFmul, float_1024. cbn [xorb].
  assert (F : shr_fexp prec emax (Z.pos (M * two52)) (E + -42) loc_Exact
              = (Build_shr_record (Z.pos M) false false, E + 10)).
  { unfold shr_fexp. rewrite Pos.mul_comm. cbn [Zdigits2].
    change (two52 * M)%positive with (Pos.iter xO M 52).
    rewrite digits2_pos_iter, D. change (Z.pos (53 + 52)) with 105.
    rewrite fexp_normal by lia.
    replace (105 + (E + -42) - 53 - (E + -42)) with 52 by lia.
    cbn. f_equal. lia. }
  unfold binary_round_aux. rewrite F.
  cbn [shr_m loc_of_shr_record round_nearest_even].
  rewrite (shr_fexp_normal M (E + 10) D) by lia. cbn [shr_m].
  now rewrite leb_emax by lia.
Qed.

Lemma float_times_1024 (m : Z) :
  0 <= m < 2 ^ 43 ->
  (f <- PyNum.float (PyInt m) ;; PyNum.fmul (PyFloat f) (PyInt 1024))
  = (f <- PyNum.float (PyInt (m * 1024)) ;; Ok (PyFloat f)).
Proof.
  intros [H0 H1]. destruct m as [|p|p]; [reflexivity| |lia].
  assert (Hp : Z.pos p < 2 ^ 53).
  { apply Z.lt_trans with (1 := H1). reflexivity. }
  assert (Hq : Z.pos (p * 1024) < 2 ^ 53).
  { rewrite Pos2Z.inj_mul. change (2 ^ 53) with (2 ^ 43 * 1024).
    apply Z.mul_lt_mono_pos_r; [reflexivity|exact H1]. }
  destruct (float_of_pos p Hp) as (M & E & F & D & B & V).
  destruct (float_of_pos (p * 1024) Hq) as (M' & E' & F' & D' & B' & V').
  change (Z.pos p * 1024) with (Z.pos (p * 1024)).
  rewrite F, F'. cbn [bind].
  unfold PyNum.fmul. cbn [PyNum.float bind].
  change (binary_normalize prec emax 1024 0 false) with float_1024.
  cbn [bind float_1024]. fold float_1024.
  rewrite (SFmul_1024 M E D) by lia.
  destruct (normal_unique M M' (10 - E') (- E) D D') as [-> Q]; try lia.
  - rewrite V, V', Pos2Z.inj_mul.
    rewrite <- !Z.mul_assoc. f_equal.
    change (Z.pos 1024) with (2 ^ 10).
    rewrite <- !Z.pow_add_r by lia. f_equal. lia.
  - do 3 f_equal. lia.
Qed.

(** ** The memory parsers (C2) *)

Lemma bind_assoc (A B C : Type) (m : pyresult A) (g : A -> pyresult B)
    (h : B -> pyresult C) :
  bind (bind m g) h = bind m (fun x => bind (g x) h).
Proof. now destruct m. Qed.

Lemma float_int_ok (z : Z) :
  0 <= z < 2 ^ 53 -> exists f, PyNum.float (PyInt z) = Ok f.
Proof.
  intros [H0 H1]. destruct z as [|p|p]; [now eexists| |lia].
  destruct (float_of_pos p H1) as (M & E & F & _). eauto.
Qed.

Lemma convert_mb_float (z : Z) (f : spec_float) (u : string) :
  PyNum.float (PyInt z) = Ok f ->
  convert_mb (PyInt z) u = convert_mb (PyFloat f) u.
Proof.
  intros F. unfold convert_mb. destruct (dict_get UNITS u); [|reflexivity].
  now rewrite F.
Qed.

Lemma parse_memory_int (w : World) (m : Z) (resource : bool) (u : string) :
  0 <= m < 2 ^ 43 -> get_lsf_units w resource = Ok u ->
  parse_memory w (PyInt m) resource = convert_mb (PyInt (m * 1024)) u.
Proof.
  intros Hm U. unfold parse_memory. rewrite U. cbn [bind].
  rewrite <- bind_assoc, (float_times_1024 m Hm), bind_assoc.
  destruct (float_int_ok (m * 1024)) as [f F].
  { change (2 ^ 53) with (2 ^ 43 * 1024). split; [lia|].
    apply Z.mul_lt_mono_pos_r; [reflexivity|apply Hm]. }
  rewrite F. cbn [bind]. symmetry. now apply convert_mb_float.
Qed.

(** C2: [parse_memory_limit m] resolves the unit in limit mode and returns
    [convert_mb (m * 1024) unit], the product being taken on doubles, which
    for an integer m below 2^43 is the integer product;
    [parse_memory_resource m] does the same in resource mode; and
    [parse_memory_limit 2] returns 2097152 when the resolved unit is KB,
    2048 when it is MB, and 2 when it is GB. *)
Theorem parse_memory_converts_gigabytes (w : World) :
  (forall mem f u,
     get_lsf_units w false = Ok u -> PyNum.float mem = Ok f ->
     parse_memory_limit w mem
     = convert_mb (PyFloat (SFmul prec emax f float_1024)) u) /\
  (forall mem f u,
     get_lsf_units w true = Ok u -> PyNum.float mem = Ok f ->
     parse_memory_resource w mem
     = convert_mb (PyFloat (SFmul prec emax f float_1024)) u) /\
  (forall m u,
     0 <= m < 2 ^ 43 -> get_lsf_units w false = Ok u ->
     parse_memory_limit w (PyInt m) = convert_mb (PyInt (m * 1024)) u) /\
  (forall m u,
     0 <= m < 2 ^ 43 -> get_lsf_units w true = Ok u ->
     parse_memory_resource w (PyInt m) = convert_mb (PyInt (m * 1024)) u) /\
  (get_lsf_units w false = Ok "KB" -> parse_memory_limit w (PyInt 2) = Ok 2097152) /\
  (get_lsf_units w false = Ok "MB" -> parse_memory_limit w (PyInt 2) = Ok 2048) /\
  (get_lsf_units w false = Ok "GB" -> parse_memory_limit w (PyInt 2) = Ok 2).
Proof.
  repeat apply conj.
  - intros mem f u U F. unfold parse_memory_limit, parse_memory.
    now rewrite U, F.
  - intros mem f u U F. unfold parse_memory_resource, parse_memory.
    now rewrite U, F.
  - intros m u Hm U. now apply parse_memory_int.
  - intros m u Hm U. now apply parse_memory_int.
  - intros U. unfold parse_memory_limit, parse_memory. rewrite U. reflexivity.
  - intros U. unfold parse_memory_limit, parse_memory. rewrite U. reflexivity.
  - intros U. unfold parse_memory_limit, parse_memory. rewrite U. reflexivity.
Qed.

Lemma parse_memory_converts_gigabytes_witness :
  parse_memory_limit bare_world (PyInt 2) = Ok 2097152 /\
  parse_memory_limit
    (sample_world (Ok "LSF_UNIT_FOR_LIMITS = MB") (Raise OSError) None [] [])
    (PyInt 2) = Ok 2048 /\
  parse_memory_limit
    (sample_world (Raise OSError) (Raise OSError) (Some "/opt/lsf/conf")
       ["LSF_UNIT_FOR_LIMITS=GB" ++ LF] [])
    (PyInt 2) = Ok 2 /\
  parse_memory_resource bare_world (PyInt 2) = Ok 2048.
Proof.
  repeat apply conj.
  - apply (proj1 (proj2 (proj2 (proj2 (proj2
             (parse_memory_converts_gigabytes bare_world)))))).
    reflexivity.
  - apply (proj1 (proj2 (proj2 (proj2 (proj2 (proj2
             (parse_memory_converts_gigabytes _))))))).
    reflexivity.
  - apply (proj2 (proj2 (proj2 (proj2 (proj2 (proj2
             (parse_memory_converts_gigabytes _))))))).
    reflexivity.
  - rewrite (proj1 (proj2 (proj2 (proj2
               (parse_memory_converts_gigabytes bare_world)))) 2 "MB");
      [reflexivity|split; [lia|reflexivity]|reflexivity].
Defined.

(** ** Unit symbols are not normalized (C9) *)

(** C9 (as amended): unit symbols taken from configuration are not
    case-normalized.  A value read for LSF_UNIT_FOR_LIMITS is the text after
    the [=] of a line with that key, only trimmed; when it is the first
    non-empty answer of the probes, [get_lsf_units] returns it verbatim, and
    if it is not one of B, KB, MB, GB, TB (for example [kb]) [parse_memory]
    fails with the assertion error that names it. *)
Theorem unit_symbols_not_case_normalized (w : World) :
  (forall stream v,
     get_lsf_units_from_stream stream = Some v ->
     exists line k raw,
       In line stream /\ PyStr.startswith "#" line = false /\
       PyStr.split "=" line = [k; raw] /\
       PyStr.strip k = "LSF_UNIT_FOR_LIMITS" /\ v = PyStr.strip raw) /\
  (forall resource v,
     first_answer w get_lsf_units_from_stream LSF_CONF_FILENAME v ->
     get_lsf_units w resource = Ok v) /\
  (forall resource mem f v,
     first_answer w get_lsf_units_from_stream LSF_CONF_FILENAME v ->
     ~ In v ["B"; "KB"; "MB"; "GB"; "TB"] ->
     PyNum.float mem = Ok f ->
     parse_memory w mem resource = Raise (AssertionError (invalid_unit_message v))) /\
  ~ In "kb" ["B"; "KB"; "MB"; "GB"; "TB"].
Proof.
  repeat apply conj.
  - intros stream v. apply first_entry_origin.
  - intros resource v A.
    apply (first_answer_resolves _ _ _ _ _ (fun v => v) v
             (get_lsf_units_in_order w resource) A).
  - intros resource mem f v A N F. unfold parse_memory.
    rewrite (first_answer_resolves _ _ _ _ _ (fun v => v) v
               (get_lsf_units_in_order w resource) A).
    rewrite F. cbn [bind PyNum.fmul PyNum.float].
    change (binary_normalize prec emax 1024 0 false) with float_1024.
    cbn [bind float_1024]. unfold convert_mb.
    now rewrite (dict_get_UNITS_None v N).
  - simpl. intros [H|[H|[H|[H|[H|[]]]]]]; discriminate H.
Qed.

Lemma unit_symbols_not_case_normalized_witness :
  get_lsf_units
    (sample_world (Ok "LSF_UNIT_FOR_LIMITS = kb") (Raise OSError) None [] []) false
  = Ok "kb" /\
  parse_memory_limit
    (sample_world (Ok "LSF_UNIT_FOR_LIMITS = kb") (Raise OSError) None [] [])
    (PyInt 2)
  = Raise (AssertionError
             "kb not a valid unit, valid units are ['B', 'KB', 'MB', 'GB', 'TB'].").
Proof.
  assert (A : first_answer
                (sample_world (Ok "LSF_UNIT_FOR_LIMITS = kb") (Raise OSError) None [] [])
                get_lsf_units_from_stream LSF_CONF_FILENAME "kb").
  { left. split; [reflexivity|discriminate]. }
  split.
  - apply (proj1 (proj2 (unit_symbols_not_case_normalized _)) false "kb" A).
  - destruct (unit_symbols_not_case_normalized
                (sample_world (Ok "LSF_UNIT_FOR_LIMITS = kb") (Raise OSError) None [] []))
      as (_ & _ & P & N).
    exact (P false (PyInt 2) _ "kb" A N eq_refl).
Defined.

(** C9 fails as stated: an empty configured value is not returned, the
    default is. *)
Lemma configured_value_returned_fails : ~ configured_value_returned.
Proof.
  intros H.
  assert (E : get_lsf_units
                (sample_world (Ok "LSF_UNIT_FOR_LIMITS =") (Raise OSError) None [] [])
                false = Ok EmptyString).
  { apply H with (out := "LSF_UNIT_FOR_LIMITS ="); reflexivity. }
  vm_compute in E. discriminate E.
Qed.

(** * Further properties *)

(** ** Trimming and case *)

Lemma lstrip_idempotent (s : string) : PyStr.lstrip (PyStr.lstrip s) = PyStr.lstrip s.
Proof.
  induction s as [|c s IH]; simpl; [reflexivity|].
  destruct (PyStr.isspace c) eqn:E; [exact IH|]. simpl. now rewrite E.
Qed.

Lemma rstrip_idempotent (s : string) : PyStr.rstrip (PyStr.rstrip s) = PyStr.rstrip s.
Proof.
  induction s as [|c s IH]; simpl; [reflexivity|].
  destruct (PyStr.isspace c && PyStr.is_empty (PyStr.rstrip s))%bool eqn:E;
    [reflexivity|].
  simpl. now rewrite IH, E.
Qed.

Lemma lstrip_rstrip (s : string) :
  PyStr.lstrip s = s -> PyStr.lstrip (PyStr.rstrip s) = PyStr.rstrip s.
Proof.
  destruct s as [|c s]; [reflexivity|]. simpl.
  destruct (PyStr.isspace c) eqn:E.
  - intros H. exfalso.
    assert (L : forall x, (String.length (PyStr.lstrip x) <= String.length x)%nat).
    { induction x as [|d x IH]; simpl; [lia|].
      destruct (PyStr.isspace d); simpl; lia. }
    specialize (L s). rewrite H in L. simpl in L. lia.
  - intros _. simpl. now rewrite E.
Qed.

Lemma strip_idempotent (s : string) : PyStr.strip (PyStr.strip s) = PyStr.strip s.
Proof.
  unfold PyStr.strip.
  rewrite (lstrip_rstrip (PyStr.lstrip s) (lstrip_idempotent s)).
  apply rstrip_idempotent.
Qed.

Lemma upper_char_idempotent (c : ascii) :
  PyStr.upper_char (PyStr.upper_char c) = PyStr.upper_char c.
Proof.
  destruct c as [[] [] [] [] [] [] [] []]; reflexivity.
Qed.

Lemma upper_idempotent (s : string) : PyStr.upper (PyStr.upper s) = PyStr.upper s.
Proof.
  induction s as [|c s IH]; simpl; [reflexivity|].
  now rewrite upper_char_idempotent, IH.
Qed.

Lemma isspace_upper_char (c : ascii) :
  PyStr.isspace (PyStr.upper_char c) = PyStr.isspace c.
Proof.
  destruct c as [[] [] [] [] [] [] [] []]; reflexivity.
Qed.

Lemma upper_is_empty (s : string) : PyStr.is_empty (PyStr.upper s) = PyStr.is_empty s.
Proof. now destruct s. Qed.

Lemma upper_lstrip (s : string) : PyStr.upper (PyStr.lstrip s) = PyStr.lstrip (PyStr.upper s).
Proof.
  induction s as [|c s IH]; simpl; [reflexivity|].
  rewrite isspace_upper_char. destruct (PyStr.isspace c); [exact IH|reflexivity].
Qed.

Lemma upper_rstrip (s : string) : PyStr.upper (PyStr.rstrip s) = PyStr.rstrip (PyStr.upper s).
Proof.
  induction s as [|c s IH]; simpl; [reflexivity|].
  rewrite isspace_upper_char, <- IH, upper_is_empty.
  destruct (PyStr.isspace c && PyStr.is_empty (PyStr.rstrip s))%bool; reflexivity.
Qed.

Lemma upper_strip (s : string) : PyStr.upper (PyStr.strip s) = PyStr.strip (PyStr.upper s).
Proof. unfold PyStr.strip. now rewrite upper_rstrip, upper_lstrip. Qed.

Section CountFacts.

Variable sep : ascii.

Lemma count_lstrip (s : string) :
  (PyStr.count sep (PyStr.lstrip s) <= PyStr.count sep s)%nat.
Proof.
  induction s as [|c s IH]; simpl; [lia|].
  destruct (PyStr.isspace c); simpl; destruct (Ascii.eqb c sep); lia.
Qed.

Lemma count_rstrip (s : string) :
  (PyStr.count sep (PyStr.rstrip s) <= PyStr.count sep s)%nat.
Proof.
  induction s as [|c s IH]; simpl; [lia|].
  destruct (PyStr.isspace c && PyStr.is_empty (PyStr.rstrip s))%bool; simpl;
    destruct (Ascii.eqb c sep); lia.
Qed.

Lemma count_strip (s : string) :
  (PyStr.count sep (PyStr.strip s) <= PyStr.count sep s)%nat.
Proof.
  unfold PyStr.strip.
  pose proof (count_rstrip (PyStr.lstrip s)). pose proof (count_lstrip s). lia.
Qed.

Lemma split_fields_clean (s : string) :
  Forall (fun f => PyStr.count sep f = O) (PyStr.split sep s).
Proof.
  induction s as [|c s IH]; simpl; [now repeat constructor|].
  destruct (Ascii.eqb c sep) eqn:E; [now constructor|].
  destruct (PyStr.split sep s) as [|f fs]; [repeat constructor; simpl; now rewrite E|].
  inversion IH; subst. constructor; [simpl; now rewrite E|assumption].
Qed.

Lemma join_split (s : string) : join sep (PyStr.split sep s) = s.
Proof.
  induction s as [|c s IH]; simpl; [reflexivity|].
  destruct (Ascii.eqb_spec c sep) as [->|N].
  - destruct (PyStr.split sep s) as [|f fs] eqn:E; [now destruct (split_not_nil sep s)|].
    simpl. simpl in IH. now rewrite IH.
  - destruct (PyStr.split sep s) as [|f fs] eqn:E; [now destruct (split_not_nil sep s)|].
    rewrite <- IH. destruct fs; reflexivity.
Qed.

End CountFacts.

(** ** More on the tokenizer *)

Lemma tokenize_flat_map (lines : list string) :
  tokenize_conf_stream lines = flat_map entry_of_line lines.
Proof.
  induction lines as [|line rest IH]; [reflexivity|].
  rewrite tokenize_line, IH. reflexivity.
Qed.

Lemma entry_of_line_length (line : string) : (List.length (entry_of_line line) <= 1)%nat.
Proof.
  unfold entry_of_line. destruct (PyStr.startswith "#" line); simpl; [lia|].
  destruct (Nat.eqb (PyStr.count "=" line) 1); simpl; lia.
Qed.

(** X1: tokenizing is done line by line: the entries of two streams read one
    after the other are the entries of the first followed by those of the
    second, and a stream never yields more entries than it has lines. *)
Theorem tokenize_conf_stream_app (s1 s2 : list string) :
  tokenize_conf_stream (s1 ++ s2)
  = (tokenize_conf_stream s1 ++ tokenize_conf_stream s2)%list /\
  (List.length (tokenize_conf_stream s1) <= List.length s1)%nat.
Proof.
  split.
  - rewrite !tokenize_flat_map. apply flat_map_app.
  - induction s1 as [|line rest IH]; [simpl; lia|].
    rewrite tokenize_line, length_app. pose proof (entry_of_line_length line).
    simpl. lia.
Qed.

(** X2: every entry the tokenizer yields comes from a line of the stream
    that does not begin with [#] and reads [a=b] with no [=] in [a] or [b];
    its key and value are [a] and [b] trimmed, so they hold no [=] and
    trimming them again changes nothing. *)
Theorem tokenize_conf_stream_entry (stream : list string) (k v : string) :
  In (k, v) (tokenize_conf_stream stream) ->
  (exists line a b,
     In line stream /\ PyStr.startswith "#" line = false /\
     line = a ++ "=" ++ b /\
     PyStr.count "=" a = O /\ PyStr.count "=" b = O /\
     k = PyStr.strip a /\ v = PyStr.strip b) /\
  PyStr.strip k = k /\ PyStr.strip v = v /\
  PyStr.count "=" k = O /\ PyStr.count "=" v = O.
Proof.
  rewrite tokenize_flat_map, in_flat_map. intros (line & I & H).
  unfold entry_of_line in H.
  destruct (PyStr.startswith "#" line) eqn:C; [destruct H|].
  destruct (Nat.eqb (PyStr.count "=" line) 1) eqn:E; [|destruct H].
  apply Nat.eqb_eq in E. destruct H as [H|[]]. injection H as <- <-.
  pose proof (split_count_1 "=" line E) as S.
  pose proof (split_fields_clean "=" line) as F. rewrite S in F.
  inversion F as [|? ? Fa F']; subst. inversion F' as [|? ? Fb _]; subst.
  pose proof (join_split "=" line) as J. rewrite S in J. simpl in J.
  pose proof (count_strip "=" (PyStr.before "=" line)).
  pose proof (count_strip "=" (PyStr.after "=" line)).
  split.
  - exists line, (PyStr.before "=" line), (PyStr.after "=" line).
    repeat split; auto.
  - rewrite !strip_idempotent. repeat split; lia.
Qed.

Lemma tokenize_conf_stream_entry_witness :
  PyStr.strip "LSF_UNIT_FOR_LIMITS" = "LSF_UNIT_FOR_LIMITS" /\ PyStr.strip "MB" = "MB".
Proof.
  pose proof (tokenize_conf_stream_entry
                ["# units" ++ LF; " LSF_UNIT_FOR_LIMITS = MB " ++ LF]
                "LSF_UNIT_FOR_LIMITS" "MB") as H.
  destruct H as (_ & K & V & _).
  - simpl. left. reflexivity.
  - split; [exact K|exact V].
Defined.

(** ** The stream readers *)

Lemma first_entry_app (key : string) (l1 l2 : list (string * string)) :
  first_entry key (l1 ++ l2)
  = match first_entry key l1 with
    | Some v => Some v
    | None => first_entry key l2
    end.
Proof.
  induction l1 as [|[k v] l1 IH]; simpl; [reflexivity|].
  destruct (String.eqb k key); [reflexivity|exact IH].
Qed.

Lemma first_entry_None (key : string) (l : list (string * string)) :
  first_entry key l = None <-> forall v, ~ In (key, v) l.
Proof.
  induction l as [|[k v] l IH]; simpl.
  - split; [intros _ v []|reflexivity].
  - destruct (String.eqb_spec k key) as [->|N].
    + split; [discriminate|]. intros H. exfalso. apply (H v). now left.
    + rewrite IH. split.
      * intros H x [E|I]; [congruence|exact (H x I)].
      * intros H x I. apply (H x). now right.
Qed.

(** X3: in each of the three stream readers the first line holding the key
    decides: reading two streams one after the other gives the answer of
    the first stream when it has one, and that of the second otherwise. *)
Theorem stream_readers_first_match (s1 s2 : list string) :
  get_lsf_units_from_stream (s1 ++ s2)
  = match get_lsf_units_from_stream s1 with
    | Some v => Some v
    | None => get_lsf_units_from_stream s2
    end /\
  per_core_reserve_from_stream (s1 ++ s2)
  = match per_core_reserve_from_stream s1 with
    | Some v => Some v
    | None => per_core_reserve_from_stream s2
    end /\
  parallel_sched_by_slot_from_stream (s1 ++ s2)
  = match parallel_sched_by_slot_from_stream s1 with
    | Some v => Some v
    | None => parallel_sched_by_slot_from_stream s2
    end.
Proof.
  unfold get_lsf_units_from_stream, per_core_reserve_from_stream,
    parallel_sched_by_slot_from_stream.
  rewrite !tokenize_flat_map, flat_map_app, !first_entry_app.
  repeat split.
  - destruct (first_entry "RESOURCE_RESERVE_PER_SLOT" (flat_map entry_of_line s1));
      reflexivity.
  - destruct (first_entry "PARALLEL_SCHED_BY_SLOT" (flat_map entry_of_line s1));
      reflexivity.
Qed.

(** X4: a stream reader returns [None] exactly when no entry of the stream
    has its key (an entry with the key and an empty value is an answer, the
    empty string). *)
Theorem stream_readers_missing_key (stream : list string) :
  (get_lsf_units_from_stream stream = None <->
   forall v, ~ In ("LSF_UNIT_FOR_LIMITS", v) (tokenize_conf_stream stream)) /\
  (per_core_reserve_from_stream stream = None <->
   forall v, ~ In ("RESOURCE_RESERVE_PER_SLOT", v) (tokenize_conf_stream stream)) /\
  (parallel_sched_by_slot_from_stream stream = None <->
   forall v, ~ In ("PARALLEL_SCHED_BY_SLOT", v) (tokenize_conf_stream stream)).
Proof.
  unfold get_lsf_units_from_stream, per_core_reserve_from_stream,
    parallel_sched_by_slot_from_stream.
  repeat split; try (apply first_entry_None);
    try (intros H; apply first_entry_None in H; now rewrite H).
  - destruct (first_entry "RESOURCE_RESERVE_PER_SLOT" (tokenize_conf_stream stream)) eqn:E;
      [discriminate|]. intros _. now apply first_entry_None.
  - destruct (first_entry "PARALLEL_SCHED_BY_SLOT" (tokenize_conf_stream stream)) eqn:E;
      [discriminate|]. intros _. now apply first_entry_None.
Qed.

Lemma first_entry_In (key : string) (l : list (string * string)) (v : string) :
  first_entry key l = Some v -> In (key, v) l.
Proof.
  induction l as [|[k x] l IH]; simpl; [discriminate|].
  destruct (String.eqb_spec k key) as [->|N].
  - intros H. injection H as <-. now left.
  - intros H. right. exact (IH H).
Qed.

Lemma tokenize_entry_trimmed (stream : list string) (k v : string) :
  In (k, v) (tokenize_conf_stream stream) ->
  PyStr.strip k = k /\ PyStr.strip v = v.
Proof.
  rewrite tokenize_flat_map, in_flat_map. intros (line & _ & H).
  unfold entry_of_line in H.
  destruct (PyStr.startswith "#" line); [destruct H|].
  destruct (Nat.eqb (PyStr.count "=" line) 1); [|destruct H].
  destruct H as [H|[]]. injection H as <- <-.
  now rewrite !strip_idempotent.
Qed.

(** X5: the value a boolean-flag reader returns is trimmed and in upper
    case: trimming it or putting it in upper case again changes nothing;
    the unit reader's value is trimmed only. *)
Theorem stream_readers_normal_form (stream : list string) (v : string) :
  (per_core_reserve_from_stream stream = Some v ->
   PyStr.upper v = v /\ PyStr.strip v = v) /\
  (parallel_sched_by_slot_from_stream stream = Some v ->
   PyStr.upper v = v /\ PyStr.strip v = v) /\
  (get_lsf_units_from_stream stream = Some v -> PyStr.strip v = v).
Proof.
  assert (U : forall key,
             option_map PyStr.upper (first_entry key (tokenize_conf_stream stream)) = Some v ->
             PyStr.upper v = v /\ PyStr.strip v = v).
  { intros key H.
    destruct (first_entry key (tokenize_conf_stream stream)) as [x|] eqn:E;
      [|discriminate].
    injection H as <-. apply first_entry_In in E.
    destruct (tokenize_entry_trimmed stream key x E) as [_ Sx].
    split; [apply upper_idempotent|].
    now rewrite <- upper_strip, Sx. }
  split; [exact (U _)|]. split; [exact (U _)|].
  intros H. apply first_entry_In in H.
  now destruct (tokenize_entry_trimmed stream _ v H).
Qed.

(** ** Looking for a configuration file *)







(** ** What the file probe returns *)

Lemma apply_conf_file_loop_origin (w : World) (fn : list string -> option string)
    (envs : list string) (conf_filename : string) (a : option string) :
  apply_conf_file_loop w fn envs conf_filename = Ok a ->
  a = None \/
  exists v env lines,
    a = Some v /\ v <> EmptyString /\ In env envs /\
    conf_file_found w conf_filename env lines /\ fn lines = Some v.
Proof.
  induction envs as [|env rest IH]; cbn [apply_conf_file_loop].
  - intros H. injection H as <-. now left.
  - assert (K : apply_conf_file_loop w fn rest conf_filename = Ok a ->
                a = None \/
                exists v env0 lines,
                  a = Some v /\ v <> EmptyString /\ In env0 (env :: rest) /\
                  conf_file_found w conf_filename env0 lines /\ fn lines = Some v).
    { intros H. destruct (IH H) as [N|(v & e & l & A & B & C & D)]; [now left|].
      right. exists v, e, l. destruct D as [D F].
      split; [exact A|]. split; [exact B|]. split; [now right|]. now split. }
    destruct (PyStr.truthy (get_conf_file w conf_filename env)); [|exact K].
    destruct (get_conf_file w conf_filename env) as [path|] eqn:G; [|exact K].
    destruct (open_lines w path) as [lines|e] eqn:O; cbn [bind]; [|discriminate].
    destruct (PyStr.truthy (fn lines)) eqn:T; [|exact K].
    intros H. injection H as <-. right.
    destruct (truthy_true _ T) as (v & E & Hv).
    exists v, env, lines.
    split; [exact E|]. split; [exact Hv|]. split; [now left|].
    split; [now exists path|]. exact E.
Qed.

Lemma apply_conf_file_loop_raise (w : World) (fn : list string -> option string)
    (envs : list string) (conf_filename : string) (e : exn) :
  apply_conf_file_loop w fn envs conf_filename = Raise e ->
  exists env path,
    In env envs /\ get_conf_file w conf_filename env = Some path /\
    open_lines w path = Raise e.
Proof.
  induction envs as [|env rest IH]; cbn [apply_conf_file_loop]; [discriminate|].
  assert (K : apply_conf_file_loop w fn rest conf_filename = Raise e ->
              exists env0 path,
                In env0 (env :: rest) /\ get_conf_file w conf_filename env0 = Some path /\
                open_lines w path = Raise e).
  { intros H. destruct (IH H) as (x & p & A & B & C). exists x, p.
    split; [now right|]. now split. }
  destruct (PyStr.truthy (get_conf_file w conf_filename env)); [|exact K].
  destruct (get_conf_file w conf_filename env) as [path|] eqn:G; [|exact K].
  destruct (open_lines w path) as [lines|x] eqn:O; cbn [bind].
  - destruct (PyStr.truthy (fn lines)); [discriminate|exact K].
  - intros H. injection H as <-. exists env, path.
    split; [now left|]. now split.
Qed.

(** X9: when the file probe returns, it returns [None] or a non-empty
    value, never the empty string; a value is what the reader finds in a
    file found through LSF_CONFDIR or LSF_ENVDIR.  When it raises, the
    exception is the one raised by opening a file so found. *)
Theorem apply_conf_file_outcome (w : World) (fn : list string -> option string)
    (conf_filename : string) :
  (forall a,
     apply_conf_file w fn conf_filename = Ok a ->
     a = None \/
     exists v env lines,
       a = Some v /\ v <> EmptyString /\
       (env = "LSF_CONFDIR" \/ env = "LSF_ENVDIR") /\
       conf_file_found w conf_filename env lines /\ fn lines = Some v) /\
  (forall e,
     apply_conf_file w fn conf_filename = Raise e ->
     exists env path,
       (env = "LSF_CONFDIR" \/ env = "LSF_ENVDIR") /\
       get_conf_file w conf_filename env = Some path /\
       open_lines w path = Raise e).
Proof.
  unfold apply_conf_file, LSF_CONF_ENV. split.
  - intros a H.
    destruct (apply_conf_file_loop_origin _ _ _ _ _ H)
      as [N|(v & env & lines & A & B & C & D & F)]; [now left|].
    right. exists v, env, lines.
    split; [exact A|]. split; [exact B|].
    split; [simpl in C; destruct C as [<-|[<-|[]]]; auto|]. now split.
  - intros e H.
    destruct (apply_conf_file_loop_raise _ _ _ _ _ H) as (env & path & C & G & O).
    exists env, path.
    split; [simpl in C; destruct C as [<-|[<-|[]]]; auto|]. now split.
Qed.

(** ** How the resolvers fail *)

Lemma silent_or_answers (w : World) (fn : list string -> option string) :
  (silent (apply_bparams w fn) \/ exists v, answers (apply_bparams w fn) v) /\
  (silent (apply_lsadmin w fn) \/ exists v, answers (apply_lsadmin w fn) v).
Proof.
  split.
  - destruct (apply_bparams_total w fn) as [a E].
    destruct (answers_or_silent _ _ E); auto.
  - destruct (apply_lsadmin_total w fn) as [a E].
    destruct (answers_or_silent _ _ E); auto.
Qed.

Ltac raise_iff resolver in_order :=
  split;
  [ intros R;
    match goal with
    | |- silent (apply_bparams ?w ?fn) /\ _ =>
        destruct (silent_or_answers w fn) as [[S1|[v A]] [S2|[v' A']]];
        try (rewrite (proj1 in_order _ A) in R; discriminate R);
        try (rewrite (proj1 (proj2 in_order) _ S1 A') in R; discriminate R);
        split; [exact S1|split; [exact S2|]];
        revert R; unfold resolver; repeat probe_step;
        match goal with
        | |- context [bind ?p _] =>
            let r := fresh "r" in
            let x := fresh "x" in
            destruct p as [r|x]; cbn [bind]
        end;
        [ repeat match goal with
                 | |- context [if ?b then _ else _] => destruct b
                 end; discriminate
        | intros R; injection R as <-; reflexivity ]
    end
  | intros (S1 & S2 & E); unfold resolver; repeat probe_step; rewrite E; reflexivity ].

(** X10: a resolver raises exactly when neither command probe answers and
    the file probe raises, and it raises that exception: a configuration
    file that is found but cannot be opened is fatal, where a command that
    cannot be run is not. *)
Theorem resolvers_raise_iff (w : World) (e : exn) :
  (forall resource,
     get_lsf_units w resource = Raise e <->
     silent (apply_bparams w get_lsf_units_from_stream) /\
     silent (apply_lsadmin w get_lsf_units_from_stream) /\
     apply_conf_file w get_lsf_units_from_stream LSF_CONF_FILENAME = Raise e) /\
  (per_core_reservation w = Raise e <->
   silent (apply_bparams w per_core_reserve_from_stream) /\
   silent (apply_lsadmin w per_core_reserve_from_stream) /\
   apply_conf_file w per_core_reserve_from_stream LSB_PARAMS_FILENAME = Raise e) /\
  (parallel_sched_by_slot w = Raise e <->
   silent (apply_bparams w parallel_sched_by_slot_from_stream) /\
   silent (apply_lsadmin w parallel_sched_by_slot_from_stream) /\
   apply_conf_file w parallel_sched_by_slot_from_stream LSB_PARAMS_FILENAME = Raise e).
Proof.
  split; [intros resource|split].
  - raise_iff get_lsf_units (get_lsf_units_in_order w resource).
  - raise_iff per_core_reservation (per_core_reservation_in_order w).
  - raise_iff parallel_sched_by_slot (parallel_sched_by_slot_in_order w).
Qed.

(** ** What the unit resolver returns *)

Lemma get_lsf_units_Ok_cases (w : World) (resource : bool) (u : string) :
  get_lsf_units w resource = Ok u ->
  first_answer w get_lsf_units_from_stream LSF_CONF_FILENAME u \/
  (all_silent w get_lsf_units_from_stream LSF_CONF_FILENAME /\
   u = default_units resource).
Proof.
  intros R.
  destruct (chain_cases w get_lsf_units_from_stream LSF_CONF_FILENAME)
    as [[v A] | [S | (S1 & S2 & e & E)]].
  - left.
    rewrite (first_answer_resolves _ _ _ _ _ (fun x => x) v
               (get_lsf_units_in_order w resource) A) in R.
    now injection R as <-.
  - right. split; [exact S|]. destruct S as (S1 & S2 & S3).
    rewrite (get_lsf_units_default w resource S1 S2 S3) in R.
    now injection R as <-.
  - exfalso. revert R. unfold get_lsf_units. repeat probe_step.
    rewrite E. discriminate.
Qed.

Lemma first_answer_not_empty (w : World) (fn : list string -> option string)
    (conf_filename v : string) :
  first_answer w fn conf_filename v -> v <> EmptyString.
Proof. intros [[_ H]|[[_ [_ H]]|(_ & _ & _ & H)]]; exact H. Qed.

(** X11: [get_lsf_units] never returns the empty string: what it returns
    is a non-empty configured value or one of the defaults [MB] and [KB]. *)
Theorem get_lsf_units_not_empty (w : World) (resource : bool) (u : string) :
  get_lsf_units w resource = Ok u -> u <> EmptyString.
Proof.
  intros R. destruct (get_lsf_units_Ok_cases w resource u R) as [A|[_ ->]].
  - exact (first_answer_not_empty _ _ _ _ A).
  - destruct resource; discriminate.
Qed.

Lemma get_lsf_units_not_empty_witness :
  ("GB" : string) <> EmptyString.
Proof.
  apply (get_lsf_units_not_empty
           (sample_world (Ok "LSF_UNIT_FOR_LIMITS = GB") (Raise OSError) None [] [])
           false "GB").
  reflexivity.
Defined.

(** X12: the flag [resource] matters for the default only: a configured
    value is returned in both modes, the two modes differ exactly when no
    probe answers ([MB] against [KB]), and they raise together. *)
Theorem get_lsf_units_resource_flag (w : World) :
  (forall u u',
     get_lsf_units w true = Ok u -> get_lsf_units w false = Ok u' ->
     (u = u' /\ first_answer w get_lsf_units_from_stream LSF_CONF_FILENAME u) \/
     (all_silent w get_lsf_units_from_stream LSF_CONF_FILENAME /\
      u = "MB" /\ u' = "KB")) /\
  (forall e, get_lsf_units w true = Raise e <-> get_lsf_units w false = Raise e).
Proof.
  split.
  - intros u u' R R'.
    destruct (get_lsf_units_Ok_cases w true u R) as [A|[S ->]].
    + left. split; [|exact A].
      rewrite (first_answer_resolves _ _ _ _ _ (fun x => x) u
                 (get_lsf_units_in_order w false) A) in R'.
      now injection R' as <-.
    + right. split; [exact S|]. split; [reflexivity|].
      destruct S as (S1 & S2 & S3).
      rewrite (get_lsf_units_default w false S1 S2 S3) in R'.
      now injection R' as <-.
  - intros e. unfold get_lsf_units.
    destruct (apply_bparams w get_lsf_units_from_stream) as [a1|x1]; cbn [bind];
      [|reflexivity].
    destruct (PyStr.truthy a1); [reflexivity|].
    destruct (apply_lsadmin w get_lsf_units_from_stream) as [a2|x2]; cbn [bind];
      [|reflexivity].
    destruct (PyStr.truthy a2); [reflexivity|].
    destruct (apply_conf_file w get_lsf_units_from_stream LSF_CONF_FILENAME)
      as [a3|x3]; cbn [bind]; [|reflexivity].
    destruct (PyStr.truthy a3); [reflexivity|]. split; discriminate.
Qed.

Lemma get_lsf_units_resource_flag_witness :
  ("MB" = "KB" /\
   first_answer bare_world get_lsf_units_from_stream LSF_CONF_FILENAME "MB") \/
  (all_silent bare_world get_lsf_units_from_stream LSF_CONF_FILENAME /\
   "MB" = "MB" /\ "KB" = "KB").
Proof.
  apply (proj1 (get_lsf_units_resource_flag bare_world) "MB" "KB"); reflexivity.
Defined.

Lemma apply_commands_same_output (w w' : World) (fn : list string -> option string) :
  check_output w bparams_cmd = check_output w' bparams_cmd ->
  check_output w lsadmin_cmd = check_output w' lsadmin_cmd ->
  apply_bparams w' fn = apply_bparams w fn /\
  apply_lsadmin w' fn = apply_lsadmin w fn.
Proof.
  unfold apply_bparams, apply_lsadmin, bparams_cmd, lsadmin_cmd.
  now intros -> ->.
Qed.

(** X13: when a command probe answers, the resolvers do not look at the
    environment or the file system: on two systems whose commands print the
    same, they return the same value, whatever the environment variables,
    the directories and the files are, even unreadable ones. *)
Theorem command_answer_skips_files (w w' : World) (v : string) :
  check_output w bparams_cmd = check_output w' bparams_cmd ->
  check_output w lsadmin_cmd = check_output w' lsadmin_cmd ->
  (forall resource,
     answers (apply_bparams w get_lsf_units_from_stream) v \/
     (silent (apply_bparams w get_lsf_units_from_stream) /\
      answers (apply_lsadmin w get_lsf_units_from_stream) v) ->
     get_lsf_units w resource = Ok v /\ get_lsf_units w' resource = Ok v) /\
  (answers (apply_bparams w per_core_reserve_from_stream) v \/
   (silent (apply_bparams w per_core_reserve_from_stream) /\
    answers (apply_lsadmin w per_core_reserve_from_stream) v) ->
   per_core_reservation w = Ok (String.eqb v "Y") /\
   per_core_reservation w' = Ok (String.eqb v "Y")) /\
  (answers (apply_bparams w parallel_sched_by_slot_from_stream) v \/
   (silent (apply_bparams w parallel_sched_by_slot_from_stream) /\
    answers (apply_lsadmin w parallel_sched_by_slot_from_stream) v) ->
   parallel_sched_by_slot w = Ok (String.eqb v "Y") /\
   parallel_sched_by_slot w' = Ok (String.eqb v "Y")).
Proof.
  intros B L.
  assert (T : forall fn conf_filename (X : Type) (r r' : pyresult X) (decode : string -> X),
             stops_at_first_answer w fn conf_filename r decode ->
             stops_at_first_answer w' fn conf_filename r' decode ->
             answers (apply_bparams w fn) v \/
             (silent (apply_bparams w fn) /\ answers (apply_lsadmin w fn) v) ->
             r = Ok (decode v) /\ r' = Ok (decode v)).
  { intros fn conf_filename X r r' decode (P1 & P2 & _) (Q1 & Q2 & _) H.
    destruct (apply_commands_same_output w w' fn B L) as [EB EL].
    rewrite EB in Q1. rewrite EB, EL in Q2.
    destruct H as [A|[S A]]; split; auto. }
  split; [intros resource|split].
  - exact (T _ _ _ _ _ (fun x => x) (get_lsf_units_in_order w resource)
             (get_lsf_units_in_order w' resource)).
  - exact (T _ _ _ _ _ eq_Y (per_core_reservation_in_order w)
             (per_core_reservation_in_order w')).
  - exact (T _ _ _ _ _ eq_Y (parallel_sched_by_slot_in_order w)
             (parallel_sched_by_slot_in_order w')).
Qed.

(** ** More on the memory converter *)

Lemma pow_1024 (n : Z) : 0 <= n -> 1024 ^ n = 2 ^ (10 * n).
Proof. intros H. change 1024 with (2 ^ 10). now rewrite <- Z.pow_mul_r by lia. Qed.

Lemma float_of_int (s : bool) (p : positive) :
  Z.pos p < 2 ^ 53 ->
  exists M E,
    PyNum.float (PyInt (if s then Z.neg p else Z.pos p)) = Ok (S754_finite s M E) /\
    digits2_pos M = 53%positive /\ -52 <= E <= 0 /\
    Z.pos M = Z.pos p * 2 ^ (- E).
Proof.
  intros H. pose proof (digits2_pos_bound p H) as L.
  assert (R : exists M E,
             binary_round prec emax s p 0 = S754_finite s M E /\
             digits2_pos M = 53%positive /\ -52 <= E <= 0 /\
             Z.pos M = Z.pos p * 2 ^ (- E)).
  { unfold binary_round. rewrite fexp_normal by lia. unfold shl_align.
    destruct (Z.pos (digits2_pos p) + 0 - 53 - 0) as [|q|q] eqn:S; try lia.
    - exists p, 0. rewrite binary_round_aux_normal by lia.
      repeat split; try lia.
    - exists (Pos.iter xO p q), (Z.pos (digits2_pos p) + 0 - 53).
      assert (D : digits2_pos (Pos.iter xO p q) = 53%positive).
      { rewrite digits2_pos_iter. lia. }
      rewrite binary_round_aux_normal by (auto; lia).
      repeat split; try lia. rewrite Zpos_iter. f_equal. f_equal. lia. }
  destruct R as (M & E & R & D & B & V). exists M, E.
  split; [|auto]. unfold PyNum.float, binary_normalize.
  destruct s; now rewrite R.
Qed.

Lemma SFdiv_pow2_signed (s : bool) (M : positive) (E k : Z) :
  digits2_pos M = 53%positive -> -1073 <= E - k <= 971 ->
  SFdiv prec emax (S754_finite s M E) (S754_finite false two52 (k - 52))
  = S754_finite s M (E - k).
Proof.
  intros D B. unfold SFdiv. rewrite (SFdiv_core_pow2 M E k D) by lia.
  rewrite xorb_false_r.
  assert (F : shr_fexp prec emax (Z.pos M~0) (E - k - 1) loc_Exact
              = (Build_shr_record (Z.pos M) false false, E - k)).
  { unfold shr_fexp. cbn [Zdigits2 digits2_pos]. rewrite D.
    change (Z.pos (Pos.succ 53)) with 54. rewrite fexp_normal by lia.
    replace (54 + (E - k - 1) - 53 - (E - k - 1)) with 1 by lia.
    cbn. f_equal. lia. }
  unfold binary_round_aux. rewrite F.
  cbn [shr_m loc_of_shr_record round_nearest_even].
  rewrite (shr_fexp_normal M (E - k) D) by lia. cbn [shr_m].
  now rewrite leb_emax by lia.
Qed.

Lemma scaled_truncation (v M E e : Z) :
  -2 <= e <= 2 -> 0 <= v -> -52 <= E <= 0 -> M = v * 2 ^ (- E) ->
  match E - 10 * e with
  | Z.neg p => M / 2 ^ Z.pos p
  | _ => M * 2 ^ (E - 10 * e)
  end = scaled v e.
Proof.
  intros He Hv HE HM. rewrite (truncation_exact v M E (10 * e) Hv HE HM).
  unfold scaled.
  destruct (Z.leb_spec 0 e), (Z.leb_spec 0 (10 * e)); try lia.
  - now rewrite pow_1024 by lia.
  - rewrite pow_1024 by lia. do 2 f_equal. lia.
Qed.

(** The converter on the integers that a double holds exactly, of either
    sign: the quotient is truncated toward zero. *)
Lemma convert_mb_int (s : bool) (v : Z) (u : string) (e : Z) :
  In (u, e) unit_table -> 0 <= v < 2 ^ 53 ->
  convert_mb (PyInt (if s then - v else v)) u
  = Ok (if s then - scaled v e else scaled v e).
Proof.
  intros Hu Hv. destruct (math_pow_1024 u e Hu) as [P He].
  unfold convert_mb. rewrite (dict_get_UNITS_Some u e Hu), P.
  destruct v as [|p|p]; [| |lia].
  - assert (e = -2 \/ e = -1 \/ e = 0 \/ e = 1 \/ e = 2) as C by lia.
    destruct s, C as [->|[->|[->|[->| ->]]]]; vm_compute; reflexivity.
  - destruct (float_of_int s p (proj2 Hv)) as (M & E & F & D & B & V).
    change (- Z.pos p) with (Z.neg p). rewrite F.
    cbn [bind PyNum.old_div PyNum.truediv PyNum.float PyNum.is_zero].
    rewrite (SFdiv_pow2_signed s M E (10 * e) D) by lia.
    cbn [PyNum.int].
    rewrite (scaled_truncation (Z.pos p) (Z.pos M) E e He); [reflexivity|lia|exact B|exact V].
Qed.

Lemma scaled_nonneg (v e : Z) : 0 <= v -> 0 <= scaled v e.
Proof.
  intros H. unfold scaled. destruct (Z.leb_spec 0 e).
  - apply Z.div_pos; [exact H|]. apply Z.pow_pos_nonneg; lia.
  - apply Z.mul_nonneg_nonneg; [exact H|]. apply Z.pow_nonneg; lia.
Qed.

(** X14: on integers the converter truncates toward zero, it does not round
    down: for v below 2^53, converting -v gives the opposite of converting
    v; toward a unit from MB up the result is the truncated quotient
    [Z.quot (-v) (1024 ^ e)], so that -1 MB is 0 GB and not -1 GB. *)
Theorem convert_mb_negative (v : Z) (u : string) (e : Z) :
  In (u, e) unit_table -> 0 <= v < 2 ^ 53 ->
  exists r,
    convert_mb (PyInt v) u = Ok r /\ 0 <= r /\
    convert_mb (PyInt (- v)) u = Ok (- r) /\
    (0 <= e -> - r = Z.quot (- v) (1024 ^ e)).
Proof.
  intros Hu Hv. exists (scaled v e).
  split; [exact (convert_mb_int false v u e Hu Hv)|].
  split; [apply scaled_nonneg; lia|].
  split; [exact (convert_mb_int true v u e Hu Hv)|].
  intros He. unfold scaled. destruct (Z.leb_spec 0 e); [|lia].
  rewrite Z.quot_opp_l by (apply Z.pow_nonzero; lia).
  rewrite Z.quot_div_nonneg; [reflexivity|lia|apply Z.pow_pos_nonneg; lia].
Qed.

Lemma convert_mb_negative_witness :
  exists r,
    convert_mb (PyInt 1) "GB" = Ok r /\ 0 <= r /\
    convert_mb (PyInt (- 1)) "GB" = Ok (- r) /\
    (0 <= 1 -> - r = Z.quot (- 1) (1024 ^ 1)).
Proof.
  apply (convert_mb_negative 1 "GB" 1).
  - simpl. tauto.
  - split; [discriminate|reflexivity].
Defined.

(** X15: the converter is monotone on the non-negative integers below
    2^53: a larger quantity never converts to a smaller number. *)
Theorem convert_mb_monotone (v v' : Z) (u : string) (e : Z) :
  In (u, e) unit_table -> 0 <= v -> v <= v' -> v' < 2 ^ 53 ->
  exists r r',
    convert_mb (PyInt v) u = Ok r /\ convert_mb (PyInt v') u = Ok r' /\ r <= r'.
Proof.
  intros Hu H0 H1 H2. exists (scaled v e), (scaled v' e).
  split; [apply (convert_mb_int false v u e Hu); lia|].
  split; [apply (convert_mb_int false v' u e Hu); lia|].
  unfold scaled. destruct (Z.leb_spec 0 e).
  - apply Z.div_le_mono; [apply Z.pow_pos_nonneg; lia|exact H1].
  - apply Z.mul_le_mono_nonneg_r; [apply Z.pow_nonneg; lia|exact H1].
Qed.

Lemma convert_mb_monotone_witness :
  exists r r',
    convert_mb (PyInt 2047) "GB" = Ok r /\ convert_mb (PyInt 2048) "GB" = Ok r' /\
    r <= r'.
Proof.
  apply (convert_mb_monotone 2047 2048 "GB" 1).
  - simpl. tauto.
  - discriminate.
  - discriminate.
  - reflexivity.
Defined.

Lemma scaled_coarser (v e e' : Z) :
  0 <= v -> e <= e' -> scaled v e' = scaled v e / 1024 ^ (e' - e).
Proof.
  intros Hv H. unfold scaled.
  assert (P : forall n, 0 <= n -> 0 < 1024 ^ n) by (intros; apply Z.pow_pos_nonneg; lia).
  destruct (Z.leb_spec 0 e), (Z.leb_spec 0 e'); try lia.
  - rewrite Z.div_div; [|apply Z.pow_nonzero; lia|apply P; lia].
    rewrite <- Z.pow_add_r by lia. do 2 f_equal. lia.
  - replace (e' - e) with (e' + - e) by lia. rewrite Z.pow_add_r by lia.
    rewrite Z.div_mul_cancel_r; [reflexivity| |];
      apply Z.pow_nonzero; lia.
  - replace (- e) with (- e' + (e' - e)) by lia.
    rewrite Z.pow_add_r, Z.mul_assoc by lia.
    symmetry. apply Z.div_mul. apply Z.pow_nonzero; lia.
Qed.

(** X16: the units compose: for a quantity below 2^53, the number in a
    coarser unit is the number in a finer unit divided, rounding down, by
    the power of 1024 between the two; so it is never larger. *)
Theorem convert_mb_coarser_unit (v : Z) (u u' : string) (e e' : Z) :
  In (u, e) unit_table -> In (u', e') unit_table -> e <= e' ->
  0 <= v < 2 ^ 53 ->
  exists r r',
    convert_mb (PyInt v) u = Ok r /\ convert_mb (PyInt v) u' = Ok r' /\
    r' = r / 1024 ^ (e' - e) /\ r' <= r.
Proof.
  intros Hu Hu' He Hv. exists (scaled v e), (scaled v e').
  split; [exact (convert_mb_int false v u e Hu Hv)|].
  split; [exact (convert_mb_int false v u' e' Hu' Hv)|].
  pose proof (scaled_coarser v e e' (proj1 Hv) He) as C.
  split; [exact C|]. rewrite C.
  apply Z.div_le_upper_bound; [apply Z.pow_pos_nonneg; lia|].
  pose proof (scaled_nonneg v e (proj1 Hv)).
  assert (1 <= 1024 ^ (e' - e)).
  { change 1 with (Z.succ 0). apply Z.le_succ_l. apply Z.pow_pos_nonneg; lia. }
  nia.
Qed.

Lemma convert_mb_coarser_unit_witness :
  exists r r',
    convert_mb (PyInt 5000) "KB" = Ok r /\ convert_mb (PyInt 5000) "GB" = Ok r' /\
    r' = r / 1024 ^ (1 - -1) /\ r' <= r.
Proof.
  apply (convert_mb_coarser_unit 5000 "KB" "GB" (-1) 1).
  - simpl. tauto.
  - simpl. tauto.
  - discriminate.
  - split; [discriminate|reflexivity].
Defined.

(** X17: a whole number m of gigabytes below 2^43 is parsed without
    rounding toward every unit up to GB, the result being m * 1024^(1 - e),
    so m itself when the cluster counts in GB; toward TB the result is
    m / 1024 rounded down. *)
Theorem parse_memory_whole_gigabytes (w : World) (m : Z) (resource : bool)
    (u : string) (e : Z) :
  In (u, e) unit_table -> 0 <= m < 2 ^ 43 ->
  get_lsf_units w resource = Ok u ->
  parse_memory w (PyInt m) resource
  = Ok (if e <=? 1 then m * 1024 ^ (1 - e) else m / 1024).
Proof.
  intros Hu Hm U. rewrite (parse_memory_int w m resource u Hm U).
  assert (B : 0 <= m * 1024 < 2 ^ 53).
  { change (2 ^ 53) with (2 ^ 43 * 1024). split; [lia|].
    apply Z.mul_lt_mono_pos_r; [reflexivity|apply Hm]. }
  rewrite (convert_mb_int false (m * 1024) u e Hu B). f_equal.
  destruct (math_pow_1024 u e Hu) as [_ He].
  assert (C : e = -2 \/ e = -1 \/ e = 0 \/ e = 1 \/ e = 2) by lia.
  unfold scaled.
  destruct C as [->|[->|[->|[->| ->]]]]; cbn -[Z.mul Z.div].
  - lia.
  - lia.
  - rewrite Z.div_1_r. lia.
  - rewrite Z.div_mul by discriminate. lia.
  - change 1048576 with (1024 * 1024). rewrite Z.div_mul_cancel_r by discriminate.
    reflexivity.
Qed.

Lemma parse_memory_whole_gigabytes_witness :
  parse_memory
    (sample_world (Ok "LSF_UNIT_FOR_LIMITS = GB") (Raise OSError) None [] [])
    (PyInt 16) false = Ok 16.
Proof.
  apply (parse_memory_whole_gigabytes _ 16 false "GB" 1).
  - simpl. tauto.
  - split; [discriminate|reflexivity].
  - reflexivity.
Defined.

(** X18: the converter rejects the doubles that are no number of bytes: an
    infinity raises [OverflowError] and a NaN raises [ValueError], for
    every valid unit, and so does [parse_memory] for such a quantity; a
    zero of either sign converts to 0. *)
Theorem convert_mb_special_doubles (u : string) (e : Z) :
  In (u, e) unit_table ->
  (forall s, convert_mb (PyFloat (S754_infinity s)) u = Raise OverflowError) /\
  convert_mb (PyFloat S754_nan) u = Raise ValueError /\
  (forall s, convert_mb (PyFloat (S754_zero s)) u = Ok 0) /\
  (forall w resource s,
     get_lsf_units w resource = Ok u ->
     parse_memory w (PyFloat (S754_infinity s)) resource = Raise OverflowError) /\
  (forall w resource,
     get_lsf_units w resource = Ok u ->
     parse_memory w (PyFloat S754_nan) resource = Raise ValueError).
Proof.
  intros Hu. destruct (math_pow_1024 u e Hu) as [P He].
  assert (C : forall x, convert_mb (PyFloat x) u
                        = (q <- PyNum.old_div (PyFloat x)
                                  (PyFloat (S754_finite false two52 (10 * e - 52))) ;;
                           PyNum.int q)).
  { intros x. unfold convert_mb. now rewrite (dict_get_UNITS_Some u e Hu), P. }
  repeat apply conj.
  - intros s. rewrite C. now destruct s.
  - rewrite C. reflexivity.
  - intros s. rewrite C. now destruct s.
  - intros w resource s U. unfold parse_memory. rewrite U.
    cbn [bind PyNum.float PyNum.fmul].
    change (binary_normalize prec emax 1024 0 false) with float_1024.
    cbn [bind float_1024 SFmul]. rewrite C. now destruct s.
  - intros w resource U. unfold parse_memory. rewrite U.
    cbn [bind PyNum.float PyNum.fmul].
    change (binary_normalize prec emax 1024 0 false) with float_1024.
    cbn [bind float_1024 SFmul]. rewrite C. reflexivity.
Qed.

Lemma convert_mb_special_doubles_witness :
  convert_mb (PyFloat (S754_infinity false)) "KB" = Raise OverflowError /\
  convert_mb (PyFloat S754_nan) "KB" = Raise ValueError.
Proof.
  destruct (convert_mb_special_doubles "KB" (-1)) as (I & N & _).
  - simpl. tauto.
  - split; [exact (I false)|exact N].
Defined.

(** ** Integers too large for a double *)

Lemma shr_1_m (mrs : shr_record) :
  0 <= shr_m mrs -> shr_m (shr_1 mrs) = shr_m mrs / 2.
Proof.
  destruct mrs as [m r s]. cbn [shr_m]. intros H.
  destruct m as [|[q|q|]|q]; cbn [shr_1 shr_m].
  - reflexivity.
  - rewrite Pos2Z.inj_xI. apply Z.div_unique with (r := 1); lia.
  - rewrite Pos2Z.inj_xO. apply Z.div_unique with (r := 0); lia.
  - reflexivity.
  - lia.
Qed.

Lemma iter_pos_shr_1_m (n : positive) (mrs : shr_record) :
  0 <= shr_m mrs ->
  shr_m (iter_pos shr_1 n mrs) = shr_m mrs / 2 ^ Z.pos n.
Proof.
  revert mrs. induction n as [n IH|n IH|]; intros mrs H; cbn [iter_pos].
  - assert (H1 : 0 <= shr_m (shr_1 mrs)).
    { rewrite shr_1_m by exact H. apply Z.div_pos; lia. }
    assert (H2 : 0 <= shr_m (iter_pos shr_1 n (shr_1 mrs))).
    { rewrite IH by exact H1. apply Z.div_pos; [exact H1|]. apply Z.pow_pos_nonneg; lia. }
    rewrite IH by exact H2. rewrite IH by exact H1. rewrite shr_1_m by exact H.
    assert (P : 0 < 2 ^ Z.pos n) by (apply Z.pow_pos_nonneg; lia).
    assert (Q : 2 ^ Z.pos n~1 = 2 * 2 ^ Z.pos n * 2 ^ Z.pos n).
    { replace (Z.pos n~1) with (1 + Z.pos n + Z.pos n) by lia.
      rewrite !Z.pow_add_r by lia. reflexivity. }
    rewrite Q, !Z.div_div by lia. f_equal. lia.
  - assert (H2 : 0 <= shr_m (iter_pos shr_1 n mrs)).
    { rewrite IH by exact H. apply Z.div_pos; [exact H|]. apply Z.pow_pos_nonneg; lia. }
    rewrite IH by exact H2. rewrite IH by exact H.
    assert (P : 0 < 2 ^ Z.pos n) by (apply Z.pow_pos_nonneg; lia).
    assert (Q : 2 ^ Z.pos n~0 = 2 ^ Z.pos n * 2 ^ Z.pos n).
    { replace (Z.pos n~0) with (Z.pos n + Z.pos n) by lia.
      apply Z.pow_add_r; lia. }
    rewrite Q, Z.div_div by lia. f_equal.
  - rewrite shr_1_m by exact H. reflexivity.
Qed.

Lemma shr_m_of_loc (m : Z) (l : location) : shr_m (shr_record_of_loc m l) = m.
Proof. destruct l as [|[]]; reflexivity. Qed.

Lemma digits2_pos_lower (q : positive) : 2 ^ (Z.pos (digits2_pos q) - 1) <= Z.pos q.
Proof.
  rewrite digits2_pos_size. pose proof (Pos.size_le q) as L.
  assert (L' : Z.pos (2 ^ Pos.size q) <= Z.pos q~0) by exact L.
  rewrite Pos2Z.inj_pow, Pos2Z.inj_xO in L'. change (Z.pos 2) with 2 in L'.
  assert (E : 2 ^ Z.pos (Pos.size q) = 2 * 2 ^ (Z.pos (Pos.size q) - 1)).
  { rewrite <- Z.pow_succ_r by lia. f_equal. lia. }
  lia.
Qed.

Lemma digits2_pos_upper (q : positive) : Z.pos q < 2 ^ Z.pos (digits2_pos q).
Proof.
  rewrite digits2_pos_size. pose proof (Pos.size_gt q) as G.
  assert (G' : Z.pos q < Z.pos (2 ^ Pos.size q)) by exact G.
  now rewrite Pos2Z.inj_pow in G'.
Qed.

(** Shifting a positive mantissa right by fewer bits than it has leaves a
    positive mantissa. *)
Lemma shr_positive (q : positive) (e n : Z) (l : location) :
  n < Z.pos (digits2_pos q) ->
  0 < shr_m (fst (shr (shr_record_of_loc (Z.pos q) l) e n)) /\
  e <= snd (shr (shr_record_of_loc (Z.pos q) l) e n).
Proof.
  intros H. unfold shr. destruct n as [|n|n]; cbn [fst snd];
    rewrite ?shr_m_of_loc; try lia.
  rewrite iter_pos_shr_1_m by (rewrite shr_m_of_loc; lia).
  rewrite shr_m_of_loc. split; [|lia].
  pose proof (digits2_pos_lower q) as L.
  assert (P : 2 ^ Z.pos n <= Z.pos q).
  { apply Z.le_trans with (2 := L). apply Z.pow_le_mono_r; lia. }
  apply Z.div_str_pos. split; [apply Z.pow_pos_nonneg; lia|exact P].
Qed.

Lemma fexp_shift (q : positive) (e : Z) :
  0 <= e ->
  fexp prec emax (Z.pos (digits2_pos q) + e) - e < Z.pos (digits2_pos q).
Proof. unfold fexp, emin, prec, emax. lia. Qed.

Lemma binary_round_aux_overflow (s : bool) (p : positive) :
  2 ^ 1024 <= Z.pos p ->
  binary_round_aux prec emax s (Z.pos p) 0 loc_Exact = S754_infinity s.
Proof.
  intros H.
  assert (D : 1025 <= Z.pos (digits2_pos p)).
  { pose proof (digits2_pos_upper p) as U.
    destruct (Z.le_gt_cases 1025 (Z.pos (digits2_pos p))) as [L|G]; [exact L|exfalso].
    assert (2 ^ Z.pos (digits2_pos p) <= 2 ^ 1024) by (apply Z.pow_le_mono_r; lia).
    lia. }
  unfold binary_round_aux, shr_fexp. cbn [Zdigits2].
  set (n1 := fexp prec emax (Z.pos (digits2_pos p) + 0) - 0).
  assert (N1 : n1 = Z.pos (digits2_pos p) - 53).
  { unfold n1, fexp, emin, prec, emax. lia. }
  pose proof (shr_positive p 0 n1 loc_Exact ltac:(lia)) as [P1 _].
  assert (E1 : snd (shr (shr_record_of_loc (Z.pos p) loc_Exact) 0 n1) = n1).
  { unfold shr. destruct n1; cbn [snd]; lia. }
  destruct (shr (shr_record_of_loc (Z.pos p) loc_Exact) 0 n1) as [mrs' e'].
  cbn [fst snd] in P1, E1. subst e'.
  set (m1 := round_nearest_even (shr_m mrs') (loc_of_shr_record mrs')).
  assert (M1 : 0 < m1).
  { unfold m1, round_nearest_even.
    destruct (loc_of_shr_record mrs') as [|[]]; try lia.
    destruct (Z.even (shr_m mrs')); lia. }
  destruct m1 as [|q|q] eqn:Q; try lia. cbn [Zdigits2].
  set (n2 := fexp prec emax (Z.pos (digits2_pos q) + n1) - n1).
  assert (F : n2 < Z.pos (digits2_pos q)) by (apply fexp_shift; lia).
  pose proof (shr_positive q n1 n2 loc_Exact F) as [P2 E2].
  destruct (shr (shr_record_of_loc (Z.pos q) loc_Exact) n1 n2) as [mrs'' e''].
  cbn [fst snd] in P2, E2.
  destruct (shr_m mrs'') as [|x|x]; try lia.
  destruct (Z.leb_spec e'' (emax - prec)) as [G|_]; [|reflexivity].
  unfold emax, prec in G. lia.
Qed.

Lemma float_overflow (s : bool) (p : positive) :
  2 ^ 1024 <= Z.pos p ->
  PyNum.float (PyInt (if s then Z.neg p else Z.pos p)) = Raise OverflowError.
Proof.
  intros H.
  assert (R : binary_round prec emax s p 0 = S754_infinity s).
  { unfold binary_round, shl_align.
    assert (D : 1025 <= Z.pos (digits2_pos p)).
    { pose proof (digits2_pos_upper p) as U.
      destruct (Z.le_gt_cases 1025 (Z.pos (digits2_pos p))) as [L|G]; [exact L|exfalso].
      assert (2 ^ Z.pos (digits2_pos p) <= 2 ^ 1024) by (apply Z.pow_le_mono_r; lia).
      lia. }
    rewrite fexp_normal by lia.
    destruct (Z.pos (digits2_pos p) + 0 - 53 - 0) eqn:S; try lia.
    now apply binary_round_aux_overflow. }
  unfold PyNum.float, binary_normalize. destruct s; now rewrite R.
Qed.

(** X19: an integer quantity of magnitude 2^1024 or more is no double:
    [float] refuses it, so for every valid unit the converter raises
    [OverflowError], and so does [parse_memory], instead of returning a
    number. *)
Theorem convert_mb_too_large (v : Z) (u : string) (e : Z) :
  In (u, e) unit_table -> 2 ^ 1024 <= Z.abs v ->
  convert_mb (PyInt v) u = Raise OverflowError /\
  (forall w resource,
     get_lsf_units w resource = Ok u ->
     parse_memory w (PyInt v) resource = Raise OverflowError).
Proof.
  intros Hu Hv.
  assert (F : PyNum.float (PyInt v) = Raise OverflowError).
  { destruct v as [|p|p].
    - exfalso. simpl in Hv.
      assert (0 < 2 ^ 1024) by (apply Z.pow_pos_nonneg; lia). lia.
    - exact (float_overflow false p Hv).
    - exact (float_overflow true p Hv). }
  split.
  - unfold convert_mb. now rewrite (dict_get_UNITS_Some u e Hu), F.
  - intros w resource U. unfold parse_memory. now rewrite U, F.
Qed.

Lemma convert_mb_too_large_witness :
  convert_mb (PyInt (2 ^ 1024)) "MB" = Raise OverflowError.
Proof.
  apply (convert_mb_too_large (2 ^ 1024) "MB" 0).
  - simpl. tauto.
  - apply Z.le_refl.
Defined.

(** ** Deleting a job store *)

(** X20: [toilClean.main] returns normally exactly when the options parse,
    the job store is obtained and its [destroy] succeeds, and it then logs
    the one line of success; when [destroy] raises, it logs the one line of
    failure and the same exception leaves [main]. *)
Theorem main_outcome (J : Type) (env : ToilClean.Env J) :
  (snd (ToilClean.main J env) = None <->
   exists locator jobStore,
     ToilClean.parse_options env = Ok locator /\
     ToilClean.getJobStore env locator = Ok jobStore /\
     ToilClean.destroy env jobStore = Ok tt) /\
  (forall locator jobStore,
     ToilClean.parse_options env = Ok locator ->
     ToilClean.getJobStore env locator = Ok jobStore ->
     ToilClean.destroy env jobStore = Ok tt ->
     ToilClean.main J env
     = (["Successfully deleted the job store: " ++ ToilClean.str env jobStore], None)) /\
  (forall locator jobStore e,
     ToilClean.parse_options env = Ok locator ->
     ToilClean.getJobStore env locator = Ok jobStore ->
     ToilClean.destroy env jobStore = Raise e ->
     ToilClean.main J env
     = (["Failed to delete the job store: " ++ ToilClean.str env jobStore],
        Some (ToilClean.Exn e))).
Proof.
  unfold ToilClean.main, ToilClean.try_body, ToilClean.except_body.
  split; [|split].
  - split.
    + destruct (ToilClean.parse_options env) as [locator|e]; [|discriminate].
      destruct (ToilClean.getJobStore env locator) as [jobStore|e] eqn:G;
        [|discriminate].
      destruct (ToilClean.destroy env jobStore) as [[]|e] eqn:D; [|discriminate].
      intros _. exists locator, jobStore. auto.
    + intros (locator & jobStore & -> & -> & ->). reflexivity.
  - intros locator jobStore -> -> ->. reflexivity.
  - intros locator jobStore e -> -> ->. reflexivity.
Qed.

(** X21: when the job store cannot be obtained, the handler of [main] reads
    the local variable [jobStore] before any assignment: nothing is logged,
    and what leaves [main] is the [UnboundLocalError], not the exception of
    [getJobStore]. *)
Theorem main_job_store_unbound (J : Type) (env : ToilClean.Env J)
    (locator : string) (e : exn) :
  ToilClean.parse_options env = Ok locator ->
  ToilClean.getJobStore env locator = Raise e ->
  ToilClean.main J env = ([], Some (ToilClean.UnboundLocalError "jobStore")) /\
  snd (ToilClean.main J env) <> Some (ToilClean.Exn e).
Proof.
  intros P G. unfold ToilClean.main, ToilClean.try_body, ToilClean.except_body.
  rewrite P, G. split; [reflexivity|discriminate].
Qed.

(** ** The order of the two environment variables *)

(** X22: the file probe tries LSF_CONFDIR before LSF_ENVDIR.  A non-empty
    value read through LSF_CONFDIR is returned without looking at
    LSF_ENVDIR; a file found through LSF_CONFDIR that cannot be opened
    raises, and LSF_ENVDIR is not tried; LSF_ENVDIR decides only when
    LSF_CONFDIR leads to no file or to no value. *)
Theorem apply_conf_file_env_order (w : World) (fn : list string -> option string)
    (conf_filename : string) :
  conf_filename <> EmptyString ->
  (forall lines v,
     conf_file_found w conf_filename "LSF_CONFDIR" lines ->
     fn lines = Some v -> v <> EmptyString ->
     apply_conf_file w fn conf_filename = Ok (Some v)) /\
  (forall path e,
     get_conf_file w conf_filename "LSF_CONFDIR" = Some path ->
     open_lines w path = Raise e ->
     apply_conf_file w fn conf_filename = Raise e) /\
  (conf_env_silent w fn conf_filename "LSF_CONFDIR" ->
   (forall lines v,
      conf_file_found w conf_filename "LSF_ENVDIR" lines ->
      fn lines = Some v -> v <> EmptyString ->
      apply_conf_file w fn conf_filename = Ok (Some v)) /\
   (conf_env_silent w fn conf_filename "LSF_ENVDIR" ->
    apply_conf_file w fn conf_filename = Ok None)).
Proof.
  intros NE. unfold apply_conf_file, LSF_CONF_ENV. split; [|split].
  - intros lines v C F Hv.
    now apply (apply_conf_file_loop_answer w fn conf_filename NE _ _ lines).
  - intros path e G O. cbn [apply_conf_file_loop].
    rewrite G, (get_conf_file_truthy w conf_filename NE _ _ G), O. reflexivity.
  - intros S. rewrite (apply_conf_file_loop_skip w fn conf_filename NE _ _ S). split.
    + intros lines v C F Hv.
      now apply (apply_conf_file_loop_answer w fn conf_filename NE _ _ lines).
    + intros S2. now rewrite (apply_conf_file_loop_skip w fn conf_filename NE _ _ S2).
Qed.

Lemma apply_conf_file_env_order_witness :
  apply_conf_file (locked_world (Raise OSError) (Raise OSError))
    get_lsf_units_from_stream LSF_CONF_FILENAME = Raise IOError.
Proof.
  apply (proj1 (proj2 (apply_conf_file_env_order _ get_lsf_units_from_stream
                         LSF_CONF_FILENAME ltac:(discriminate)))
           "/opt/lsf/conf/lsf.conf" IOError); reflexivity.
Defined.

(** ** Witnesses *)

Lemma stream_readers_normal_form_witness :
  PyStr.upper "Y" = "Y" /\ PyStr.strip "Y" = "Y".
Proof.
  apply (proj1 (stream_readers_normal_form ["RESOURCE_RESERVE_PER_SLOT = y "] "Y")).
  reflexivity.
Defined.


Lemma apply_conf_file_outcome_witness :
  exists env path,
    (env = "LSF_CONFDIR" \/ env = "LSF_ENVDIR") /\
    get_conf_file (locked_world (Raise OSError) (Raise OSError))
      LSF_CONF_FILENAME env = Some path /\
    open_lines (locked_world (Raise OSError) (Raise OSError)) path = Raise IOError.
Proof.
  apply (proj2 (apply_conf_file_outcome (locked_world (Raise OSError) (Raise OSError))
                  get_lsf_units_from_stream LSF_CONF_FILENAME)).
  reflexivity.
Defined.

Lemma resolvers_raise_iff_witness :
  get_lsf_units (locked_world (Ok "QUEUE = normal") (Raise OSError)) false
  = Raise IOError.
Proof.
  apply (proj1 (resolvers_raise_iff _ IOError) false).
  split; [|split].
  - exists None. split; reflexivity.
  - exists None. split; reflexivity.
  - reflexivity.
Defined.

Lemma command_answer_skips_files_witness :
  get_lsf_units
    (sample_world (Ok "LSF_UNIT_FOR_LIMITS = GB") (Raise OSError) None [] []) true
  = Ok "GB" /\
  get_lsf_units (locked_world (Ok "LSF_UNIT_FOR_LIMITS = GB") (Raise OSError)) true
  = Ok "GB".
Proof.
  apply (proj1 (command_answer_skips_files
                  (sample_world (Ok "LSF_UNIT_FOR_LIMITS = GB") (Raise OSError) None [] [])
                  (locked_world (Ok "LSF_UNIT_FOR_LIMITS = GB") (Raise OSError))
                  "GB" eq_refl eq_refl) true).
  left. split; [reflexivity|discriminate].
Defined.

Lemma main_outcome_witness :
  ToilClean.main string (clean_env true true)
  = (["Successfully deleted the job store: file:/tmp/jobstore"], None) /\
  ToilClean.main string (clean_env true false)
  = (["Failed to delete the job store: file:/tmp/jobstore"],
     Some (ToilClean.Exn IOError)).
Proof.
  split.
  - apply (proj1 (proj2 (main_outcome string (clean_env true true)))
             "file:/tmp/jobstore" "file:/tmp/jobstore"); reflexivity.
  - apply (proj2 (proj2 (main_outcome string (clean_env true false)))
             "file:/tmp/jobstore" "file:/tmp/jobstore" IOError); reflexivity.
Defined.

Lemma main_job_store_unbound_witness :
  ToilClean.main string (clean_env false true)
  = ([], Some (ToilClean.UnboundLocalError "jobStore")) /\
  snd (ToilClean.main string (clean_env false true)) <> Some (ToilClean.Exn OSError).
Proof.
  apply (main_job_store_unbound string (clean_env false true)
           "file:/tmp/jobstore" OSError); reflexivity.
Defined.
